(** * ant/base.py: the ANT message codec and the reader/scheduler engine

    A shallow embedding of [Message] (framing and checksum) and of the
    stateful parts of [Ant] (frame assembly from the USB stream, dispatch of
    decoded messages to the two callbacks, burst reassembly, duplicate
    suppression and the time-slotted outgoing queue).

    Python integers are unbounded, so they are [Z]; [^], [&], [|], [<<], [>>]
    and [%] are [Z.lxor], [Z.land], [Z.lor], [Z.shiftl], [Z.shiftr] and
    [Z.modulo], which agree with Python on negative numbers as well.  Both a
    Python list of integers and an [array.array('B')] are a [list Z]; the
    range check that building an [array('B')] performs is [array_B]. *)

From Stdlib Require Import ZArith List Bool Lia Permutation.
From Stdlib Require String.
Import ListNotations.
Open Scope Z_scope.

(** ** Exceptions and results *)

Inductive Exn : Type :=
| TypeError        (* reduce() of an empty sequence with no initial value *)
| OverflowError    (* array('B', ...) given a value outside 0..255 *)
| AssertionError   (* a failed assert in Message.parse *)
| IndexError       (* subscript out of range *)
| USBError.        (* raised by the USB endpoints *)

Inductive Res (A : Type) : Type :=
| Ok (a : A)
| Raise (e : Exn).
Arguments Ok {A} a.
Arguments Raise {A} e.

Definition is_byte (x : Z) : bool := (0 <=? x) && (x <=? 255).

(** [array.array('B', l)]: every element has to fit an unsigned byte. *)
Definition array_B (l : list Z) : Res (list Z) :=
  if forallb is_byte l then Ok l else Raise OverflowError.

(** [reduce(f, l)] without an initial value. *)
Definition reduce {A : Type} (f : A -> A -> A) (l : list A) : Res A :=
  match l with
  | [] => Raise TypeError
  | x :: xs => Ok (fold_left f xs x)
  end.

(** [l[i]] for a non-negative constant index. *)
Definition getitem (l : list Z) (i : nat) : Res Z :=
  match nth_error l i with
  | Some x => Ok x
  | None => Raise IndexError
  end.

(** ** Message identifiers and codes *)

Module ID.
Definition STARTUP_MESSAGE         : Z := 0x6F.
Definition SERIAL_ERROR_MESSAGE    : Z := 0xAE.
Definition RESET_SYSTEM            : Z := 0x4A.
Definition REQUEST_MESSAGE         : Z := 0x4D.
Definition BROADCAST_DATA          : Z := 0x4E.
Definition ACKNOWLEDGE_DATA        : Z := 0x4F.
Definition BURST_TRANSFER_DATA     : Z := 0x50.
Definition RESPONSE_CHANNEL        : Z := 0x40.
Definition RESPONSE_CHANNEL_STATUS : Z := 0x52.
Definition RESPONSE_CHANNEL_ID     : Z := 0x51.
Definition RESPONSE_VERSION        : Z := 0x3E.
Definition RESPONSE_CAPABILITIES   : Z := 0x54.
Definition RESPONSE_SERIAL_NUMBER  : Z := 0x61.
End ID.

Module Code.
Definition EVENT_RX_SEARCH_TIMEOUT : Z := 1.
Definition EVENT_TRANSFER_TX_COMPLETED : Z := 5.
Definition EVENT_RX_BROADCAST      : Z := 1000.
Definition EVENT_RX_ACKNOWLEDGED   : Z := 2000.
Definition EVENT_RX_BURST_PACKET   : Z := 3000.
End Code.

(** ** class Message *)

Record Message : Type := mkMessage {
  _sync     : Z;
  _length   : Z;
  _id       : Z;
  _data     : list Z;
  _checksum : Z
}.

(** [Message.__init__(self, mId, data)].  The checksum folds [^] over [data]
    with no initial value, so an empty [data] raises. *)
Definition Message_init (mId : Z) (data : list Z) : Res Message :=
  let sync := 0xa4 in
  let len := Z.of_nat (length data) in
  match reduce Z.lxor data with
  | Raise e => Raise e
  | Ok x =>
      Ok {| _sync := sync; _length := len; _id := mId; _data := data;
            _checksum := Z.lxor (Z.lxor (Z.lxor sync len) mId) x |}
  end.

(** [Message.get(self)]. *)
Definition get (m : Message) : Res (list Z) :=
  array_B ([_sync m; _length m; _id m] ++ _data m ++ [_checksum m]).

(** Frame construction followed by serialisation: [Message(mId, data).get()]. *)
Definition encode (mId : Z) (data : list Z) : Res (list Z) :=
  match Message_init mId data with
  | Raise e => Raise e
  | Ok m => get m
  end.

(** [Message.parse(buf)].  [buf[3:-1]] is [removelast] of what follows the
    three header bytes, [buf[-1]] is the last element, [buf[:-1]] is
    [removelast buf]. *)
Definition parse (buf : list Z) : Res Message :=
  match buf with
  | sync :: len :: mId :: rest =>
      let data := removelast rest in
      let checksum := last buf 0 in
      if negb (sync =? 0xa4) then Raise AssertionError
      else if negb (len =? Z.of_nat (length data)) then Raise AssertionError
      else
        match reduce Z.lxor (removelast buf) with
        | Raise e => Raise e
        | Ok x =>
            if negb (checksum =? x) then Raise AssertionError
            else Message_init mId data
        end
  | _ => Raise IndexError
  end.

(** ** class Ant: state

    The fields of the object, the USB endpoints it talks to and the two
    callbacks.  [usb_in] is the script of results of the successive calls of
    [self._in.read(4096)] (a chunk of bytes, or an exception); a read past the
    end of the script times out with [USBError].  [usb_out] logs what
    [self._out.write] was given, and a write raises [USBError] when
    [usb_out_up] is false.  [queue_busy] says that another thread holds
    [_message_queue_cond] when the reader tries to take it.  The callbacks
    [response_function] and [channel_event_function] are recorded in
    [delivered], in call order. *)

Inductive Delivery : Type :=
| Response (channel : option Z) (event : Z) (data : list Z)
| ChannelEvent (channel : Z) (event : Z) (data : list Z).

Record Ant : Type := mkAnt {
  _buffer        : list Z;
  _burst_data    : list Z;
  _last_data     : list Z;
  _message_queue : list Message;
  _running       : bool;
  usb_in         : list (Res (list Z));
  usb_out        : list (list Z);
  usb_out_up     : bool;
  queue_busy     : bool;
  delivered      : list Delivery
}.

(** The fields as [Ant.__init__] leaves them, over a given USB script. *)
Definition Ant_init (script : list (Res (list Z))) : Ant :=
  {| _buffer := []; _burst_data := []; _last_data := []; _message_queue := [];
     _running := true; usb_in := script; usb_out := []; usb_out_up := true;
     queue_busy := false; delivered := [] |}.

Definition set_buffer (b : list Z) (st : Ant) : Ant :=
  mkAnt b (_burst_data st) (_last_data st) (_message_queue st) (_running st)
        (usb_in st) (usb_out st) (usb_out_up st) (queue_busy st) (delivered st).

Definition set_burst_data (b : list Z) (st : Ant) : Ant :=
  mkAnt (_buffer st) b (_last_data st) (_message_queue st) (_running st)
        (usb_in st) (usb_out st) (usb_out_up st) (queue_busy st) (delivered st).

Definition set_last_data (d : list Z) (st : Ant) : Ant :=
  mkAnt (_buffer st) (_burst_data st) d (_message_queue st) (_running st)
        (usb_in st) (usb_out st) (usb_out_up st) (queue_busy st) (delivered st).

Definition set_message_queue (q : list Message) (st : Ant) : Ant :=
  mkAnt (_buffer st) (_burst_data st) (_last_data st) q (_running st)
        (usb_in st) (usb_out st) (usb_out_up st) (queue_busy st) (delivered st).

Definition set_usb_in (s : list (Res (list Z))) (st : Ant) : Ant :=
  mkAnt (_buffer st) (_burst_data st) (_last_data st) (_message_queue st)
        (_running st) s (usb_out st) (usb_out_up st) (queue_busy st)
        (delivered st).

Definition set_usb_out (o : list (list Z)) (st : Ant) : Ant :=
  mkAnt (_buffer st) (_burst_data st) (_last_data st) (_message_queue st)
        (_running st) (usb_in st) o (usb_out_up st) (queue_busy st)
        (delivered st).

Definition set_delivered (d : list Delivery) (st : Ant) : Ant :=
  mkAnt (_buffer st) (_burst_data st) (_last_data st) (_message_queue st)
        (_running st) (usb_in st) (usb_out st) (usb_out_up st) (queue_busy st) d.

(** ** A state-and-exception monad

    A method either returns or raises; what it did to the object before
    raising stays done. *)

Definition M (A : Type) : Type := Ant -> Res A * Ant.

Definition ret {A : Type} (a : A) : M A := fun st => (Ok a, st).

Definition bind {A B : Type} (c : M A) (k : A -> M B) : M B :=
  fun st =>
    match c st with
    | (Ok a, st') => k a st'
    | (Raise e, st') => (Raise e, st')
    end.

Definition lift {A : Type} (r : Res A) : M A := fun st => (r, st).

Definition gets {A : Type} (f : Ant -> A) : M A := fun st => (Ok (f st), st).

Definition modify (f : Ant -> Ant) : M unit := fun st => (Ok tt, f st).

Declare Scope ant_scope.
Delimit Scope ant_scope with ant.
Notation "x <- c ;; k" := (bind c (fun x => k))
  (at level 61, c at next level, right associativity) : ant_scope.
Notation "c ;; k" := (bind c (fun _ => k))
  (at level 61, right associativity) : ant_scope.
Open Scope ant_scope.

(** [for x in l: body(x)]. *)
Fixpoint for_each {A : Type} (l : list A) (body : A -> M unit) : M unit :=
  match l with
  | [] => ret tt
  | x :: xs => body x ;; for_each xs body
  end.

(** [==] on two byte arrays. *)
Fixpoint array_eqb (a b : list Z) : bool :=
  match a, b with
  | [], [] => true
  | x :: a', y :: b' => (x =? y) && array_eqb a' b'
  | _, _ => false
  end.

(** [x in l]. *)
Definition mem (x : Z) (l : list Z) : bool := existsb (Z.eqb x) l.

(** ** class Ant: callbacks and handlers *)

Definition response_function (channel : option Z) (event : Z) (data : list Z)
  : M unit :=
  modify (fun st => set_delivered (delivered st ++ [Response channel event data]) st).

Definition channel_event_function (channel : Z) (event : Z) (data : list Z)
  : M unit :=
  modify (fun st => set_delivered (delivered st ++ [ChannelEvent channel event data]) st).

Definition _on_broadcast (message : Message) : M unit :=
  c <- lift (getitem (_data message) 0) ;;
  channel_event_function c Code.EVENT_RX_BROADCAST (skipn 1 (_data message)).

Definition _on_acknowledge (message : Message) : M unit :=
  c <- lift (getitem (_data message) 0) ;;
  channel_event_function c Code.EVENT_RX_ACKNOWLEDGED (skipn 1 (_data message)).

(** The terminal flag of a 3-bit sequence code, [0b100]. *)
Definition LAST_SEQUENCE : Z := 4.

Definition _on_burst_data (message : Message) : M unit :=
  b0 <- lift (getitem (_data message) 0) ;;
  let sequence := Z.shiftr b0 5 in
  let channel := Z.land b0 0x1F in
  let data := skipn 1 (_data message) in
  modify (fun st => set_burst_data (_burst_data st ++ data) st) ;;
  if negb (Z.land sequence LAST_SEQUENCE =? 0) then
    acc <- gets _burst_data ;;
    channel_event_function channel Code.EVENT_RX_BURST_PACKET acc ;;
    modify (set_burst_data [])
  else
    ret tt.

(** ** class Ant: writing *)

(** [self._out.write(bytes)]. *)
Definition usb_write (bytes : list Z) : M unit :=
  fun st =>
    if usb_out_up st then (Ok tt, set_usb_out (usb_out st ++ [bytes]) st)
    else (Raise USBError, st).

Definition write_message (message : Message) : M unit :=
  data <- lift (get message) ;;
  usb_write (data ++ [0x00; 0x00]).

(** [with self._message_queue_cond: self._message_queue.append(message)]:
    the caller waits for the lock, then appends. *)
Definition write_message_timeslot (message : Message) : M unit :=
  modify (fun st => set_message_queue (_message_queue st ++ [message]) st).

(** ** class Ant: reading *)

(** The test of [read_message]: a whole message is in the buffer already. *)
Definition message_in_buffer (buf : list Z) : bool :=
  (5 <=? Z.of_nat (length buf)) &&
  (nth 1 buf 0 + 4 <=? Z.of_nat (length buf)).

(** [read_message], by recursion on the reads the endpoint still has to
    offer: every recursive call of the method comes after one read.  The
    buffer is an [array('B')], so [self._buffer[1] + 4] is at least 4 and the
    two slices are [firstn] and [skipn]. *)
Fixpoint read_message_from (script : list (Res (list Z))) (st : Ant)
  : Res Message * Ant :=
  let buf := _buffer st in
  if message_in_buffer buf then
    let n := Z.to_nat (nth 1 buf 0 + 4) in
    let packet := firstn n buf in
    (parse packet, set_buffer (skipn n buf) st)
  else
    match script with
    | [] => (Raise USBError, st)
    | Raise e :: script' => (Raise e, set_usb_in script' st)
    | Ok data :: script' =>
        read_message_from script'
          (set_usb_in script' (set_buffer (buf ++ data) st))
    end.

Definition read_message : M Message :=
  fun st => read_message_from (usb_in st) st.

(** ** class Ant: the reader loop *)

(** Lines 300-331 of [run]: the callbacks for a message that is not a
    resent broadcast. *)
Definition run_callbacks (message : Message) : M unit :=
  let mId := _id message in
  let data := _data message in
  (if mem mId [ID.STARTUP_MESSAGE; ID.SERIAL_ERROR_MESSAGE]
   then response_function None mId data else ret tt) ;;
  (if mem mId [ID.RESPONSE_VERSION; ID.RESPONSE_CAPABILITIES;
               ID.RESPONSE_SERIAL_NUMBER]
   then response_function None mId data else ret tt) ;;
  (if mem mId [ID.RESPONSE_CHANNEL_STATUS; ID.RESPONSE_CHANNEL_ID] then
     c <- lift (getitem data 0) ;;
     response_function (Some c) mId (skipn 1 data)
   else
     other <- (if mId =? ID.RESPONSE_CHANNEL
               then (d1 <- lift (getitem data 1) ;; ret (negb (d1 =? 0x01)))
               else ret false) ;;
     if other then
       c <- lift (getitem data 0) ;;
       e <- lift (getitem data 1) ;;
       response_function (Some c) e (skipn 2 data)
     else if mId =? ID.BROADCAST_DATA then _on_broadcast message
     else if mId =? ID.ACKNOWLEDGE_DATA then _on_acknowledge message
     else if mId =? ID.BURST_TRANSFER_DATA then _on_burst_data message
     else if mId =? ID.RESPONSE_CHANNEL then
       c <- lift (getitem data 0) ;;
       e <- lift (getitem data 1) ;;
       channel_event_function c e (skipn 2 data)
     else ret tt).

(** The [break] test of the queue loop:
    [m._id != BURST_TRANSFER_DATA or m._data[0] & 0b10000000]. *)
Definition ends_timeslot (m : Message) : M bool :=
  if negb (_id m =? ID.BURST_TRANSFER_DATA) then ret true
  else (b0 <- lift (getitem (_data m) 0) ;; ret (negb (Z.land b0 0x80 =? 0))).

(** The [while len(self._message_queue) > 0] loop, on the queue [q] that the
    object holds when the loop test is evaluated. *)
Fixpoint send_queue_loop (q : list Message) : M unit :=
  match q with
  | [] => ret tt
  | m :: q' =>
      modify (set_message_queue q') ;;
      write_message m ;;
      stop <- ends_timeslot m ;;
      if stop then ret tt else send_queue_loop q'
  end.

(** Lines 336-349 of [run]: on a broadcast, send from the queue if the lock
    can be taken without waiting. *)
Definition run_send_queue (message : Message) : M unit :=
  if _id message =? ID.BROADCAST_DATA then
    acquired <- gets (fun st => negb (queue_busy st)) ;;
    if acquired then (q <- gets _message_queue ;; send_queue_loop q)
    else ret tt
  else ret tt.

(** Lines 297-333 of [run]: callbacks only for new data; a broadcast that
    repeats the last payload only marks a new timeslot. *)
Definition run_dispatch (message : Message) : M unit :=
  last <- gets _last_data ;;
  if negb ((_id message =? ID.BROADCAST_DATA)
           && array_eqb (_data message) last)
  then run_callbacks message else ret tt.

(** Lines 297-351 of [run]: what one iteration does with the message read. *)
Definition run_message (message : Message) : M unit :=
  run_dispatch message ;;
  run_send_queue message ;;
  modify (set_last_data (_data message)).

(** The body of the [try]. *)
Definition run_body : M unit :=
  message <- read_message ;;
  run_message message.

(** One iteration: [usb.USBError] is caught and logged, anything else
    leaves the loop. *)
Definition run_iteration : M unit :=
  fun st =>
    match run_body st with
    | (Raise USBError, st') => (Ok tt, st')
    | r => r
    end.

(** [run], for at most [fuel] iterations. *)
Fixpoint run (fuel : nat) : M unit :=
  match fuel with
  | O => ret tt
  | S fuel' =>
      running <- gets _running ;;
      if running then (run_iteration ;; run fuel') else ret tt
  end.

(** ** class Ant: commands *)

Definition reset_system : M unit :=
  message <- lift (Message_init ID.RESET_SYSTEM [0x00]) ;;
  write_message message.

Definition request_message (channel : Z) (messageId : Z) : M unit :=
  message <- lift (Message_init ID.REQUEST_MESSAGE [0x00; messageId]) ;;
  write_message message.

Definition send_acknowledged_data (channel : Z) (broadcastData : list Z)
  : M unit :=
  message <- lift (Message_init ID.ACKNOWLEDGE_DATA ([0x00] ++ broadcastData)) ;;
  write_message_timeslot message.

Definition send_burst_transfer_packet (channelSeq : Z) (data : list Z)
  (first : bool) : M unit :=
  message <- lift (Message_init ID.BURST_TRANSFER_DATA ([channelSeq] ++ data)) ;;
  write_message_timeslot message.

Definition send_burst_transfer (channel : Z) (data : list (list Z)) : M unit :=
  for_each (seq 0 (length data)) (fun i =>
    let sequence := Z.of_nat i mod 4 in
    let sequence :=
      if Z.of_nat i =? Z.of_nat (length data) - 1
      then Z.lor sequence LAST_SEQUENCE else sequence in
    let channelSeq := Z.lor channel (Z.shiftl sequence 5) in
    send_burst_transfer_packet channelSeq (nth i data []) (Nat.eqb i 0)).

(** ** Reference definitions, in the words of the specification *)

(** The checksum of a frame: the running exclusive-or of sync, length, id and
    every payload byte. *)
Definition frame_checksum (mId : Z) (payload : list Z) : Z :=
  fold_left Z.lxor ([Z.of_nat (length payload); mId] ++ payload) 0xa4.

(** The wire image of a frame: [[sync, len(payload), id] ++ payload ++ [checksum]]. *)
Definition frame_bytes (mId : Z) (payload : list Z) : list Z :=
  [0xa4; Z.of_nat (length payload); mId] ++ payload
    ++ [frame_checksum mId payload].

(** Decoding what encoding produced gives back the frame [(mId, payload)]. *)
Definition round_trips (mId : Z) (payload : list Z) : Prop :=
  exists bytes m,
    encode mId payload = Ok bytes /\ parse bytes = Ok m /\
    _id m = mId /\ _data m = payload.

(** Encoding succeeds with the wire image. *)
Definition encode_succeeds (mId : Z) (payload : list Z) : Prop :=
  encode mId payload = Ok (frame_bytes mId payload).

(** The frame assembler hands over the frame at the front of the buffer:
    it cuts [4 + declared_length] bytes, leaves the rest in the buffer,
    returns what decoding the cut bytes gives and reads nothing from the
    endpoint. *)
Definition returns_buffered_frame (st : Ant) : Prop :=
  exists packet rest,
    _buffer st = packet ++ rest /\
    Z.of_nat (length packet) = 4 + nth 1 (_buffer st) 0 /\
    read_message st = (parse packet, set_buffer rest st).

(** A written frame after which a drain goes on: a burst-transfer-data frame
    whose first payload byte has the 0x80 terminal-flag bit clear. *)
Definition keeps_draining (m : Message) : bool :=
  (_id m =? ID.BURST_TRANSFER_DATA) && (Z.land (hd 0 (_data m)) 0x80 =? 0).

(** What one drain writes, and what it leaves queued: frames are taken from
    the front up to and including the first one that does not keep the
    drain going. *)
Fixpoint drain_split (q : list Message) : list Message * list Message :=
  match q with
  | [] => ([], [])
  | m :: q' =>
      if keeps_draining m then
        let (written, left) := drain_split q' in (m :: written, left)
      else ([m], q')
  end.

(** A frame that can be put on the wire: all its fields are bytes and it has
    a payload (as every frame built by [Message(...)] has). *)
Definition sendable (m : Message) : bool :=
  forallb is_byte ([_sync m; _length m; _id m] ++ _data m ++ [_checksum m])
  && match _data m with [] => false | _ :: _ => true end.

(** What [write_message] gives the endpoint for a frame: its bytes and two
    zero bytes. *)
Definition wire (m : Message) : list Z :=
  ([_sync m; _length m; _id m] ++ _data m ++ [_checksum m]) ++ [0x00; 0x00].

(** The first payload byte of the [i]-th of [n] burst chunks:
    [channel | (i % 4) << 5], and for the final chunk also [| 0b100 << 5]. *)
Definition burst_channelSeq (channel : Z) (i n : nat) : Z :=
  let b := Z.lor channel (Z.shiftl (Z.of_nat i mod 4) 5) in
  if Nat.eqb (S i) n then Z.lor b (Z.shiftl 4 5) else b.

(** The frame [Message(mId, x :: xs)] builds. *)
Definition frame (mId : Z) (payload : list Z) : Message :=
  mkMessage 0xa4 (Z.of_nat (length payload)) mId payload
            (frame_checksum mId payload).

(** A computation that leaves the component [f] of the object as it found
    it, whether it returns or raises. *)
Definition keeps {F A : Type} (f : Ant -> F) (c : M A) : Prop :=
  forall st, f (snd (c st)) = f st.

(** A fresh object with bytes already buffered. *)
Definition ant_with_buffer (buf : list Z) (script : list (Res (list Z))) : Ant :=
  set_buffer buf (Ant_init script).

(** A fresh object with frames already queued for the next timeslot. *)
Definition ant_with_queue (q : list Message) : Ant :=
  set_message_queue q (Ant_init []).

(** The burst packet of sequence code [s] on [channel] carrying [d]. *)
Definition burst_packet (channel s : Z) (d : list Z) : Message :=
  frame ID.BURST_TRANSFER_DATA (Z.lor channel (Z.shiftl s 5) :: d).

(** The frames a burst transfer queues for the chunks [rest], the first of
    which is chunk number [i] of [n]. *)
Fixpoint burst_frames (channel : Z) (n i : nat) (rest : list (list Z))
  : list Message :=
  match rest with
  | [] => []
  | chunk :: rest' =>
      frame ID.BURST_TRANSFER_DATA (burst_channelSeq channel i n :: chunk)
      :: burst_frames channel n (S i) rest'
  end.

(** ** The rest of the module *)

(** The identifiers of [Message.ID] used by the configuration and control
    commands. *)
Module ConfigID.
Definition ASSIGN_CHANNEL             : Z := 0x42.
Definition SET_CHANNEL_ID             : Z := 0x51.
Definition SET_CHANNEL_PERIOD         : Z := 0x43.
Definition SET_CHANNEL_SEARCH_TIMEOUT : Z := 0x44.
Definition SET_CHANNEL_RF_FREQ        : Z := 0x45.
Definition SET_NETWORK_KEY            : Z := 0x46.
Definition SET_SEARCH_WAVEFORM        : Z := 0x49.
Definition OPEN_CHANNEL               : Z := 0x4B.
End ConfigID.

(** [Message.Code]: the integer attributes of the class, as the pairs that
    [Message.Code.__dict__.items()] yields (in source order here; a
    dictionary yields them in an order of its own).  The attributes that are
    not integers ([lookup] itself, [__module__], [__doc__]) are the ones the
    test [type(value) == int] skips. *)
Module CodeNames.
Import String.
Definition items : list (string * Z) :=
  [ ("RESPONSE_NO_ERROR", 0);
    ("EVENT_RX_SEARCH_TIMEOUT", 1);
    ("EVENT_RX_FAIL", 2);
    ("EVENT_TX", 3);
    ("EVENT_TRANSFER_RX_FAILED", 4);
    ("EVENT_TRANSFER_TX_COMPLETED", 5);
    ("EVENT_TRANSFER_TX_FAILED", 6);
    ("EVENT_CHANNEL_CLOSED", 7);
    ("EVENT_RX_FAIL_GO_TO_SEARCH", 8);
    ("EVENT_CHANNEL_COLLISION", 9);
    ("EVENT_TRANSFER_TX_START", 10);
    ("CHANNEL_IN_WRONG_STATE", 21);
    ("CHANNEL_NOT_OPENED", 22);
    ("CHANNEL_ID_NOT_SET", 24);
    ("CLOSE_ALL_CHANNELS", 25);
    ("TRANSFER_IN_PROGRESS", 31);
    ("TRANSFER_SEQUENCE_NUMBER_ERROR", 32);
    ("TRANSFER_IN_ERROR", 33);
    ("MESSAGE_SIZE_EXCEEDS_LIMIT", 39);
    ("INVALID_MESSAGE", 40);
    ("INVALID_NETWORK_NUMBER", 41);
    ("INVALID_LIST_ID", 48);
    ("INVALID_SCAN_TX_CHANNEL", 49);
    ("INVALID_PARAMETER_PROVIDED", 51);
    ("EVENT_SERIAL_QUE_OVERFLOW", 52);
    ("EVENT_QUE_OVERFLOW", 53);
    ("NVM_FULL_ERROR", 64);
    ("NVM_WRITE_ERROR", 65);
    ("USB_STRING_WRITE_FAIL", 112);
    ("MESG_SERIAL_ERROR_ID", 174);
    ("EVENT_RX_BROADCAST", 1000);
    ("EVENT_RX_FLAG_BROADCAST", 1001);
    ("EVENT_RX_ACKNOWLEDGED", 2000);
    ("EVENT_RX_FLAG_ACKNOWLEDGED", 2001);
    ("EVENT_RX_BURST_PACKET", 3000);
    ("EVENT_RX_FLAG_BURST_PACKET", 3001) ]%string.
End CodeNames.

(** [Message.Code.lookup(event)] over the items in a given order: the key of
    the first item whose value is [event], or [None]. *)
Fixpoint lookup_in (items : list (String.string * Z)) (event : Z)
  : option String.string :=
  match items with
  | [] => None
  | (key, value) :: rest =>
      if value =? event then Some key else lookup_in rest event
  end.

Definition lookup (event : Z) : option String.string :=
  lookup_in CodeNames.items event.

(** No value occurs twice. *)
Fixpoint distinct (l : list Z) : bool :=
  match l with
  | [] => true
  | x :: xs => negb (mem x xs) && distinct xs
  end.

Definition unassign_channel (channel : Z) : M unit := ret tt.

Definition assign_channel (channel channelType networkNumber : Z) : M unit :=
  message <- lift (Message_init ConfigID.ASSIGN_CHANNEL
                     [channel; channelType; networkNumber]) ;;
  write_message message.

Definition open_channel (channel : Z) : M unit :=
  message <- lift (Message_init ConfigID.OPEN_CHANNEL [channel]) ;;
  write_message message.

Definition set_channel_id (channel : Z) (deviceNum : list Z)
  (deviceType transmissionType : Z) : M unit :=
  d0 <- lift (getitem deviceNum 0) ;;
  d1 <- lift (getitem deviceNum 1) ;;
  message <- lift (Message_init ConfigID.SET_CHANNEL_ID
                     [channel; d0; d1; deviceType; transmissionType]) ;;
  write_message message.

Definition set_channel_period (channel : Z) (messagePeriod : list Z) : M unit :=
  message <- lift (Message_init ConfigID.SET_CHANNEL_PERIOD
                     ([channel] ++ messagePeriod)) ;;
  write_message message.

Definition set_channel_search_timeout (channel timeout : Z) : M unit :=
  message <- lift (Message_init ConfigID.SET_CHANNEL_SEARCH_TIMEOUT
                     [channel; timeout]) ;;
  write_message message.

Definition set_channel_rf_freq (channel rfFreq : Z) : M unit :=
  message <- lift (Message_init ConfigID.SET_CHANNEL_RF_FREQ [channel; rfFreq]) ;;
  write_message message.

Definition set_network_key (network : Z) (key : list Z) : M unit :=
  message <- lift (Message_init ConfigID.SET_NETWORK_KEY ([network] ++ key)) ;;
  write_message message.

Definition set_search_waveform (channel : Z) (waveform : list Z) : M unit :=
  message <- lift (Message_init ConfigID.SET_SEARCH_WAVEFORM
                     ([channel] ++ waveform)) ;;
  write_message message.

(** ** More reference definitions *)

(** [l] with the element at index [i] replaced by [v]. *)
Definition set_at (i : nat) (v : Z) (l : list Z) : list Z :=
  firstn i l ++ v :: skipn (S i) l.

(** The exclusive-or of all the elements. *)
Definition xor_all (l : list Z) : Z := fold_left Z.lxor l 0.

(** An immediate send of the frame [(mId, payload)]: its wire image and two
    zero bytes reach the endpoint, and nothing else changes. *)
Definition sends_now (c : M unit) (mId : Z) (payload : list Z) (st : Ant)
  : Prop :=
  c st =
  (Ok tt,
   set_usb_out (usb_out st ++ [frame_bytes mId payload ++ [0x00; 0x00]]) st).


(** The state after the callback stage of an iteration on a broadcast with
    payload [c :: rest]: one more channel event, unless the payload is the
    last one again. *)
Definition after_broadcast (c : Z) (rest : list Z) (st : Ant) : Ant :=
  if array_eqb (c :: rest) (_last_data st) then st
  else set_delivered
         (delivered st ++ [ChannelEvent c Code.EVENT_RX_BROADCAST rest]) st.





(** * Properties *)

(** ** Bytes and exclusive-or *)

Lemma is_byte_iff (x : Z) : is_byte x = true <-> 0 <= x <= 255.
Proof. unfold is_byte. rewrite andb_true_iff, !Z.leb_le. tauto. Qed.

Lemma lxor_is_byte (a b : Z) :
  is_byte a = true -> is_byte b = true -> is_byte (Z.lxor a b) = true.
Proof.
  rewrite !is_byte_iff. intros Ha Hb.
  assert (Hn : 0 <= Z.lxor a b) by (apply Z.lxor_nonneg; lia).
  split; [exact Hn|].
  destruct (Z.eq_dec (Z.lxor a b) 0) as [E|E]; [lia|].
  assert (Hlt : Z.lxor a b < 2 ^ 8).
  { apply Z.log2_lt_pow2; [lia|].
    pose proof (Z.log2_lxor a b ltac:(lia) ltac:(lia)) as Hl.
    assert (Z.log2 a < 8).
    { destruct (Z.eq_dec a 0) as [->|]; [simpl; lia|].
      apply Z.log2_lt_pow2; simpl; lia. }
    assert (Z.log2 b < 8).
    { destruct (Z.eq_dec b 0) as [->|]; [simpl; lia|].
      apply Z.log2_lt_pow2; simpl; lia. }
    lia. }
  simpl in Hlt. lia.
Qed.

Lemma fold_lxor_is_byte (l : list Z) : forall a,
  is_byte a = true -> forallb is_byte l = true ->
  is_byte (fold_left Z.lxor l a) = true.
Proof.
  induction l as [|x l IH]; intros a Ha Hl; simpl in *; [exact Ha|].
  apply andb_true_iff in Hl as [Hx Hl].
  apply IH; [apply lxor_is_byte|]; assumption.
Qed.

Lemma fold_lxor_shift (l : list Z) : forall a b,
  fold_left Z.lxor l (Z.lxor a b) = Z.lxor a (fold_left Z.lxor l b).
Proof.
  induction l as [|x l IH]; intros a b; simpl; [reflexivity|].
  rewrite <- IH, Z.lxor_assoc. reflexivity.
Qed.

(** The checksum that [__init__] stores is the checksum of the frame. *)
Lemma Message_init_nonempty (mId x : Z) (xs : list Z) :
  Message_init mId (x :: xs) =
  Ok (frame mId (x :: xs)).
Proof.
  unfold Message_init, frame, frame_checksum, reduce.
  do 2 f_equal. cbn [app fold_left].
  symmetry. apply fold_lxor_shift.
Qed.

Lemma forallb_is_byte_app (l1 l2 : list Z) :
  forallb is_byte (l1 ++ l2) = forallb is_byte l1 && forallb is_byte l2.
Proof. apply forallb_app. Qed.

Lemma frame_checksum_is_byte (mId : Z) (payload : list Z) :
  is_byte mId = true -> forallb is_byte payload = true ->
  Z.of_nat (length payload) <= 255 ->
  is_byte (frame_checksum mId payload) = true.
Proof.
  intros Hid Hp Hlen. unfold frame_checksum.
  apply fold_lxor_is_byte; [reflexivity|].
  cbn [app forallb]. rewrite Hid, Hp.
  replace (is_byte (Z.of_nat (length payload))) with true; [reflexivity|].
  symmetry. apply is_byte_iff. lia.
Qed.

Lemma encode_nonempty (mId x : Z) (xs : list Z) :
  is_byte mId = true -> forallb is_byte (x :: xs) = true ->
  Z.of_nat (length (x :: xs)) <= 255 ->
  encode mId (x :: xs) = Ok (frame_bytes mId (x :: xs)).
Proof.
  intros Hid Hp Hlen. unfold encode.
  rewrite Message_init_nonempty. unfold get, array_B, frame_bytes, frame.
  cbn [_sync _length _id _data _checksum].
  replace (forallb is_byte _) with true; [reflexivity|].
  symmetry. rewrite !forallb_is_byte_app. cbn [forallb].
  rewrite Hid, (frame_checksum_is_byte mId (x :: xs) Hid Hp Hlen).
  replace (is_byte (Z.of_nat (length (x :: xs)))) with true
    by (symmetry; apply is_byte_iff; lia).
  cbn [forallb] in Hp. rewrite Hp. reflexivity.
Qed.

Lemma encode_too_long (mId : Z) (payload : list Z) :
  255 < Z.of_nat (length payload) ->
  encode mId payload = Raise OverflowError.
Proof.
  intros Hlen. destruct payload as [|x xs]; [simpl in Hlen; lia|].
  unfold encode. rewrite Message_init_nonempty. unfold get, array_B, frame.
  cbn [_sync _length _id _data _checksum app forallb].
  replace (is_byte (Z.of_nat (length (x :: xs)))) with false; [reflexivity|].
  symmetry. apply not_true_is_false. rewrite is_byte_iff. lia.
Qed.

Lemma parse_frame_bytes (mId x : Z) (xs : list Z) :
  parse (frame_bytes mId (x :: xs)) = Message_init mId (x :: xs).
Proof.
  unfold frame_bytes, parse.
  cbn [app]. set (p := x :: xs). set (c := frame_checksum mId p).
  change (x :: xs ++ [c]) with (p ++ [c]).
  rewrite removelast_last.
  replace (last (_ :: _ :: _ :: p ++ [c]) 0) with c.
  2:{ change (164 :: Z.of_nat (length p) :: mId :: p ++ [c])
        with ([164; Z.of_nat (length p); mId] ++ p ++ [c]).
      rewrite app_assoc, last_last. reflexivity. }
  replace (removelast (_ :: _ :: _ :: p ++ [c]))
    with (164 :: Z.of_nat (length p) :: mId :: p).
  2:{ change (164 :: Z.of_nat (length p) :: mId :: p ++ [c])
        with ([164; Z.of_nat (length p); mId] ++ p ++ [c]).
      rewrite app_assoc, removelast_last. reflexivity. }
  rewrite !Z.eqb_refl. cbn [negb reduce].
  change (fold_left Z.lxor (Z.of_nat (length p) :: mId :: p) 164) with c.
  rewrite Z.eqb_refl. reflexivity.
Qed.

(** ** The codec *)

Example encode_reset :
  encode ID.RESET_SYSTEM [0] = Ok [0xa4; 1; 0x4a; 0; 0xef].
Proof. reflexivity. Qed.

Example parse_reset :
  parse [0xa4; 1; 0x4a; 0; 0xef] = Message_init ID.RESET_SYSTEM [0].
Proof. reflexivity. Qed.

Example parse_bad_checksum :
  parse [0xa4; 1; 0x4a; 0; 0xee] = Raise AssertionError.
Proof. reflexivity. Qed.

Example parse_bad_length :
  parse [0xa4; 2; 0x4a; 0; 0xec] = Raise AssertionError.
Proof. reflexivity. Qed.

(** A well-formed frame with no payload cannot be decoded either: the
    asserts pass and [Message(mId, data)] raises. *)
Example parse_empty_payload : parse [0xa4; 0; 0x4a; 0xee] = Raise TypeError.
Proof. reflexivity. Qed.

(** C1, as stated, fails on the empty payload: [Message(mId, [])] raises
    [TypeError] in the checksum fold, so there is nothing to decode. *)
Lemma round_trip_empty_payload_fails : ~ round_trips ID.RESET_SYSTEM [].
Proof.
  intros (bytes & m & He & _). vm_compute in He. discriminate He.
Qed.

(** C1 (amended): for every message id byte and every payload of 1 to 255
    bytes, decoding the bytes produced by encoding [(mId, payload)] yields a
    frame with the same id and the same payload. *)
Theorem parse_encode_round_trip (mId : Z) (payload : list Z) :
  is_byte mId = true ->
  forallb is_byte payload = true ->
  payload <> [] ->
  Z.of_nat (length payload) <= 255 ->
  round_trips mId payload.
Proof.
  intros Hid Hp Hne Hlen.
  destruct payload as [|x xs]; [contradiction|].
  exists (frame_bytes mId (x :: xs)).
  exists (frame mId (x :: xs)).
  split; [apply encode_nonempty; assumption|].
  split; [|split; reflexivity].
  rewrite parse_frame_bytes. apply Message_init_nonempty.
Qed.

Lemma parse_encode_round_trip_witness :
  is_byte 0x4e = true /\ forallb is_byte [3; 0x44; 0xff] = true /\
  [3; 0x44; 0xff] <> [] /\ Z.of_nat (length [3; 0x44; 0xff]) <= 255 /\
  round_trips 0x4e [3; 0x44; 0xff].
Proof.
  assert (H1 : is_byte 0x4e = true) by reflexivity.
  assert (H2 : forallb is_byte [3; 0x44; 0xff] = true) by reflexivity.
  assert (H3 : [3; 0x44; 0xff] <> []) by discriminate.
  assert (H4 : Z.of_nat (length [3; 0x44; 0xff]) <= 255) by (simpl; lia).
  split; [exact H1|]. split; [exact H2|]. split; [exact H3|].
  split; [exact H4|].
  exact (parse_encode_round_trip 0x4e [3; 0x44; 0xff] H1 H2 H3 H4).
Defined.

(** C4, as stated, fails on the empty payload: encoding does not succeed. *)
Lemma encode_empty_payload_fails : ~ encode_succeeds ID.RESET_SYSTEM [].
Proof. unfold encode_succeeds. vm_compute. discriminate. Qed.

(** C4 (amended): for an id byte and payload bytes, encoding succeeds for
    every payload of 1 to 255 bytes and produces
    [[sync, len(payload), id] ++ payload ++ [checksum]]; it raises [TypeError]
    on the empty payload and [OverflowError] (from building the byte array)
    when the payload is longer than 255 bytes.  No other length fails. *)
Theorem encode_succeeds_iff_1_to_255 (mId : Z) (payload : list Z) :
  is_byte mId = true ->
  forallb is_byte payload = true ->
  (1 <= Z.of_nat (length payload) <= 255 -> encode_succeeds mId payload) /\
  (payload = [] -> encode mId payload = Raise TypeError) /\
  (255 < Z.of_nat (length payload) -> encode mId payload = Raise OverflowError) /\
  (encode_succeeds mId payload <-> 1 <= Z.of_nat (length payload) <= 255).
Proof.
  intros Hid Hp.
  assert (A : 1 <= Z.of_nat (length payload) <= 255 -> encode_succeeds mId payload).
  { intros [Hlo Hhi]. destruct payload as [|x xs]; [simpl in Hlo; lia|].
    apply encode_nonempty; assumption. }
  assert (B : payload = [] -> encode mId payload = Raise TypeError).
  { intros ->. reflexivity. }
  assert (C : 255 < Z.of_nat (length payload) ->
              encode mId payload = Raise OverflowError).
  { apply encode_too_long. }
  repeat split; try assumption.
  - destruct payload as [|x xs].
    + unfold encode_succeeds in H. rewrite (B eq_refl) in H. discriminate H.
    + simpl length. lia.
  - destruct (Z_le_gt_dec (Z.of_nat (length payload)) 255) as [Hle|Hgt];
      [exact Hle|].
    unfold encode_succeeds in H. rewrite C in H by lia. discriminate H.
Qed.

Lemma encode_succeeds_iff_1_to_255_witness :
  is_byte 0x4d = true /\ forallb is_byte [0; 0x54] = true /\
  encode 0x4d [0; 0x54] = Ok [0xa4; 2; 0x4d; 0; 0x54; 0xbf].
Proof.
  assert (H1 : is_byte 0x4d = true) by reflexivity.
  assert (H2 : forallb is_byte [0; 0x54] = true) by reflexivity.
  split; [exact H1|]. split; [exact H2|].
  apply (proj1 (encode_succeeds_iff_1_to_255 0x4d [0; 0x54] H1 H2)).
  simpl. lia.
Defined.

(** ** The frame assembler *)

Lemma read_message_from_ready (script : list (Res (list Z))) (st : Ant) :
  message_in_buffer (_buffer st) = true ->
  read_message_from script st =
  let n := Z.to_nat (nth 1 (_buffer st) 0 + 4) in
  (parse (firstn n (_buffer st)), set_buffer (skipn n (_buffer st)) st).
Proof.
  intros H. destruct script as [|[data|e] script']; simpl; rewrite H; reflexivity.
Qed.


Lemma forallb_is_byte_nth (l : list Z) (i : nat) :
  forallb is_byte l = true -> 0 <= nth i l 0 <= 255.
Proof.
  intros H. destruct (Nat.lt_ge_cases i (length l)) as [Hi|Hi].
  - apply is_byte_iff. rewrite forallb_forall in H. apply H, nth_In, Hi.
  - rewrite nth_overflow by exact Hi. lia.
Qed.

(** C3, as stated, fails when the buffer holds exactly four bytes (a frame
    that declares no payload): the test of [read_message] asks for five, so
    the endpoint is read again. *)
Lemma four_byte_buffer_reads_again :
  4 <= Z.of_nat (length [0xa4; 0; 0x4a; 0xee]) /\
  4 + nth 1 [0xa4; 0; 0x4a; 0xee] 0 <= Z.of_nat (length [0xa4; 0; 0x4a; 0xee]) /\
  ~ returns_buffered_frame
      (ant_with_buffer [0xa4; 0; 0x4a; 0xee] [Ok [0xa4; 1; 0x4a; 0; 0xef]]).
Proof.
  split; [simpl; lia|]. split; [simpl; lia|].
  intros (packet & rest & _ & _ & Hr).
  apply (f_equal (fun r => usb_in (snd r))) in Hr.
  vm_compute in Hr. discriminate Hr.
Qed.

(** C3 (amended): whenever the stream buffer holds at least 5 bytes and at
    least [4 + declared_length] bytes, where [declared_length] is the byte at
    offset 1, [read_message] cuts exactly [4 + declared_length] bytes from the
    front as the candidate frame, removes exactly those bytes from the
    buffer, and returns what decoding them gives, without reading from the
    endpoint. *)
Theorem read_message_from_buffer (st : Ant) :
  forallb is_byte (_buffer st) = true ->
  5 <= Z.of_nat (length (_buffer st)) ->
  4 + nth 1 (_buffer st) 0 <= Z.of_nat (length (_buffer st)) ->
  returns_buffered_frame st.
Proof.
  intros Hb H5 Hn.
  pose proof (forallb_is_byte_nth (_buffer st) 1 Hb) as Hd.
  set (n := Z.to_nat (nth 1 (_buffer st) 0 + 4)).
  exists (firstn n (_buffer st)), (skipn n (_buffer st)).
  split; [symmetry; apply firstn_skipn|].
  split.
  - rewrite length_firstn. unfold n. lia.
  - unfold read_message. apply read_message_from_ready.
    unfold message_in_buffer. apply andb_true_iff.
    rewrite !Z.leb_le. lia.
Qed.

Lemma read_message_from_buffer_witness :
  returns_buffered_frame (ant_with_buffer [0xa4; 1; 0x4a; 0; 0xef; 0xa4] []).
Proof.
  apply (read_message_from_buffer
           (ant_with_buffer [0xa4; 1; 0x4a; 0; 0xef; 0xa4] [])).
  - reflexivity.
  - simpl. lia.
  - simpl. lia.
Defined.

(** There the frame comes back and the byte after it stays buffered. *)
Example read_message_buffered :
  read_message (ant_with_buffer [0xa4; 1; 0x4a; 0; 0xef; 0xa4] [])
  = (Ok (frame 0x4a [0]), ant_with_buffer [0xa4] []).
Proof. reflexivity. Qed.

(** A frame split over two reads is put together again. *)
Example read_message_two_chunks :
  fst (read_message (Ant_init [Ok [0xa4; 1; 0x4a]; Ok [0; 0xef]]))
  = Ok (frame 0x4a [0]).
Proof. reflexivity. Qed.

(** With nothing buffered and nothing to read, the read times out. *)
Example read_message_timeout :
  fst (read_message (Ant_init [])) = Raise USBError.
Proof. reflexivity. Qed.

(** ** The monad *)

Lemma keeps_ret {F A : Type} (f : Ant -> F) (a : A) : keeps f (ret a).
Proof. intros st. reflexivity. Qed.

Lemma keeps_lift {F A : Type} (f : Ant -> F) (r : Res A) : keeps f (lift r).
Proof. intros st. reflexivity. Qed.

Lemma keeps_gets {F A : Type} (f : Ant -> F) (g : Ant -> A) : keeps f (gets g).
Proof. intros st. reflexivity. Qed.

Lemma keeps_modify {F : Type} (f : Ant -> F) (g : Ant -> Ant) :
  (forall st, f (g st) = f st) -> keeps f (modify g).
Proof. intros H st. apply H. Qed.

Lemma keeps_bind {F A B : Type} (f : Ant -> F) (c : M A) (k : A -> M B) :
  keeps f c -> (forall a, keeps f (k a)) -> keeps f (bind c k).
Proof.
  intros Hc Hk st. unfold bind. specialize (Hc st).
  destruct (c st) as [[a|e] st1]; simpl in *.
  - rewrite Hk. exact Hc.
  - exact Hc.
Qed.

Lemma keeps_if {F A : Type} (f : Ant -> F) (b : bool) (c1 c2 : M A) :
  keeps f c1 -> keeps f c2 -> keeps f (if b then c1 else c2).
Proof. destruct b; auto. Qed.

Create HintDb keeps.
#[local] Hint Resolve keeps_ret keeps_lift keeps_gets keeps_bind keeps_if : keeps.




(** ** The burst reassembler *)

(** Splitting [channel | seq << 5] again, for a 5-bit channel. *)
Lemma channelSeq_split (channel s : Z) :
  0 <= channel <= 31 -> 0 <= s ->
  Z.shiftr (Z.lor channel (Z.shiftl s 5)) 5 = s /\
  Z.land (Z.lor channel (Z.shiftl s 5)) 0x1F = channel.
Proof.
  intros Hc Hs. split.
  - rewrite Z.shiftr_lor, Z.shiftr_shiftl_l by lia.
    rewrite Z.shiftr_div_pow2 by lia.
    rewrite Z.div_small by (simpl; lia).
    rewrite Z.sub_diag, Z.shiftl_0_r. reflexivity.
  - change 0x1F with (Z.ones 5).
    rewrite Z.land_lor_distr_l, !Z.land_ones by lia.
    rewrite Z.shiftl_mul_pow2 by lia.
    rewrite Z.mod_mul by (simpl; lia).
    rewrite Z.mod_small by (simpl; lia).
    apply Z.lor_0_r.
Qed.

Lemma on_burst_data_last (message : Message) (b0 : Z) (rest : list Z) (st : Ant) :
  _data message = b0 :: rest ->
  Z.land (Z.shiftr b0 5) LAST_SEQUENCE <> 0 ->
  _on_burst_data message st =
  (Ok tt,
   set_burst_data []
     (set_delivered
        (delivered st ++
         [ChannelEvent (Z.land b0 0x1F) Code.EVENT_RX_BURST_PACKET
                       (_burst_data st ++ rest)]) st)).
Proof.
  intros Hd Hs. unfold _on_burst_data. rewrite Hd.
  apply Z.eqb_neq in Hs.
  unfold bind, lift, getitem; cbn [nth_error skipn modify fst snd].
  rewrite Hs. destruct st; reflexivity.
Qed.

Lemma on_burst_data_more (message : Message) (b0 : Z) (rest : list Z) (st : Ant) :
  _data message = b0 :: rest ->
  Z.land (Z.shiftr b0 5) LAST_SEQUENCE = 0 ->
  _on_burst_data message st =
  (Ok tt, set_burst_data (_burst_data st ++ rest) st).
Proof.
  intros Hd Hs. unfold _on_burst_data. rewrite Hd.
  apply Z.eqb_eq in Hs.
  unfold bind, lift, getitem; cbn [nth_error skipn modify fst snd].
  rewrite Hs. reflexivity.
Qed.

(** C6: a burst payload with [seq = byte0 >> 5] and [channel = byte0 & 0x1F]
    has its remaining bytes appended to the accumulator; if [seq & 0b100] is
    set the whole accumulator is emitted as one burst channel-event for
    [channel] and the accumulator is emptied, otherwise nothing is emitted.
    Three packets with sequence codes 0, 1 and 2|terminal, starting from an
    empty accumulator, give no event after the first and the second and one
    event with the concatenation of their data after the third. *)
Theorem on_burst_data_reassembles :
  (forall (message : Message) (b0 : Z) (rest : list Z) (st : Ant),
      _data message = b0 :: rest ->
      (Z.land (Z.shiftr b0 5) 4 <> 0 ->
       _on_burst_data message st =
       (Ok tt,
        set_burst_data []
          (set_delivered
             (delivered st ++
              [ChannelEvent (Z.land b0 0x1F) Code.EVENT_RX_BURST_PACKET
                            (_burst_data st ++ rest)]) st))) /\
      (Z.land (Z.shiftr b0 5) 4 = 0 ->
       _on_burst_data message st =
       (Ok tt, set_burst_data (_burst_data st ++ rest) st))) /\
  (forall (channel : Z) (d0 d1 d2 : list Z) (st : Ant),
      0 <= channel <= 31 ->
      _burst_data st = [] ->
      let p0 := burst_packet channel 0 d0 in
      let p1 := burst_packet channel 1 d1 in
      let p2 := burst_packet channel (Z.lor 2 4) d2 in
      _on_burst_data p0 st = (Ok tt, set_burst_data d0 st) /\
      (_on_burst_data p0 ;; _on_burst_data p1) st
      = (Ok tt, set_burst_data (d0 ++ d1) st) /\
      (_on_burst_data p0 ;; _on_burst_data p1 ;; _on_burst_data p2) st
      = (Ok tt,
         set_delivered
           (delivered st ++
            [ChannelEvent channel Code.EVENT_RX_BURST_PACKET (d0 ++ d1 ++ d2)])
           st)).
Proof.
  split.
  - intros message b0 rest st Hd. split; intros Hs.
    + exact (on_burst_data_last message b0 rest st Hd Hs).
    + exact (on_burst_data_more message b0 rest st Hd Hs).
  - intros channel d0 d1 d2 st Hc Hacc p0 p1 p2.
    destruct (channelSeq_split channel 0 Hc ltac:(lia)) as [S0 C0].
    destruct (channelSeq_split channel 1 Hc ltac:(lia)) as [S1 C1].
    destruct (channelSeq_split channel (Z.lor 2 4) Hc ltac:(simpl; lia))
      as [S2 C2].
    assert (E0 : _on_burst_data p0 st = (Ok tt, set_burst_data d0 st)).
    { rewrite (on_burst_data_more p0 (Z.lor channel (Z.shiftl 0 5)) d0 st eq_refl).
      - rewrite Hacc. reflexivity.
      - rewrite S0. reflexivity. }
    assert (E1 : _on_burst_data p1 (set_burst_data d0 st)
                 = (Ok tt, set_burst_data (d0 ++ d1) st)).
    { rewrite (on_burst_data_more p1 (Z.lor channel (Z.shiftl 1 5)) d1 _ eq_refl).
      - destruct st; reflexivity.
      - rewrite S1. reflexivity. }
    assert (E2 : _on_burst_data p2 (set_burst_data (d0 ++ d1) st)
                 = (Ok tt,
                    set_delivered
                      (delivered st ++
                       [ChannelEvent channel Code.EVENT_RX_BURST_PACKET
                                     (d0 ++ d1 ++ d2)]) st)).
    { rewrite (on_burst_data_last p2 (Z.lor channel (Z.shiftl (Z.lor 2 4) 5)) d2 _ eq_refl).
      - rewrite C2. destruct st; simpl in *. subst.
        rewrite <- app_assoc. reflexivity.
      - rewrite S2. discriminate. }
    split; [exact E0|]. split.
    + unfold bind. rewrite E0. exact E1.
    + unfold bind. rewrite E0, E1. exact E2.
Qed.

Lemma on_burst_data_reassembles_witness :
  _on_burst_data (burst_packet 3 0 [1; 2]) (Ant_init [])
  = (Ok tt, set_burst_data [1; 2] (Ant_init [])) /\
  (_on_burst_data (burst_packet 3 0 [1; 2]) ;;
   _on_burst_data (burst_packet 3 1 [3; 4])) (Ant_init [])
  = (Ok tt, set_burst_data ([1; 2] ++ [3; 4]) (Ant_init [])) /\
  (_on_burst_data (burst_packet 3 0 [1; 2]) ;;
   _on_burst_data (burst_packet 3 1 [3; 4]) ;;
   _on_burst_data (burst_packet 3 (Z.lor 2 4) [5])) (Ant_init [])
  = (Ok tt,
     set_delivered
       (delivered (Ant_init []) ++
        [ChannelEvent 3 Code.EVENT_RX_BURST_PACKET ([1; 2] ++ [3; 4] ++ [5])])
       (Ant_init [])).
Proof.
  apply (proj2 on_burst_data_reassembles 3 [1; 2] [3; 4] [5] (Ant_init [])).
  - lia.
  - reflexivity.
Defined.

(** ** Sending from the queue leaves the callbacks alone *)

Lemma keeps_delivered_usb_write (bytes : list Z) : keeps delivered (usb_write bytes).
Proof.
  intros st. unfold usb_write. destruct (usb_out_up st); reflexivity.
Qed.

Lemma keeps_delivered_write_message (m : Message) :
  keeps delivered (write_message m).
Proof.
  unfold write_message. apply keeps_bind; [apply keeps_lift|].
  intros data. apply keeps_delivered_usb_write.
Qed.

Lemma keeps_delivered_ends_timeslot (m : Message) :
  keeps delivered (ends_timeslot m).
Proof. unfold ends_timeslot. auto 6 with keeps. Qed.

Lemma keeps_delivered_send_queue_loop (q : list Message) :
  keeps delivered (send_queue_loop q).
Proof.
  induction q as [|m q IH]; simpl; [apply keeps_ret|].
  apply keeps_bind; [apply keeps_modify; reflexivity|]. intros _.
  apply keeps_bind; [apply keeps_delivered_write_message|]. intros _.
  apply keeps_bind; [apply keeps_delivered_ends_timeslot|]. intros stop.
  apply keeps_if; [apply keeps_ret|exact IH].
Qed.

Lemma keeps_delivered_run_send_queue (message : Message) :
  keeps delivered (run_send_queue message).
Proof.
  unfold run_send_queue. apply keeps_if; [|apply keeps_ret].
  apply keeps_bind; [apply keeps_gets|]. intros acquired.
  apply keeps_if; [|apply keeps_ret].
  apply keeps_bind; [apply keeps_gets|]. intros q.
  apply keeps_delivered_send_queue_loop.
Qed.

(** A message other than a broadcast sends nothing. *)
Lemma run_send_queue_not_broadcast (message : Message) (st : Ant) :
  _id message <> ID.BROADCAST_DATA ->
  run_send_queue message st = (Ok tt, st).
Proof.
  intros H. unfold run_send_queue. apply Z.eqb_neq in H. rewrite H. reflexivity.
Qed.


(** What [run] does with a message, in terms of its three parts. *)
Lemma run_dispatch_unfold (message : Message) (st : Ant) :
  run_dispatch message st =
  if negb ((_id message =? ID.BROADCAST_DATA)
           && array_eqb (_data message) (_last_data st))
  then run_callbacks message st else (Ok tt, st).
Proof.
  unfold run_dispatch, bind, gets.
  destruct (negb _); reflexivity.
Qed.

Lemma run_message_unfold (message : Message) (st : Ant) :
  run_message message st =
  match run_dispatch message st with
  | (Ok _, st1) =>
      match run_send_queue message st1 with
      | (Ok _, st2) => (Ok tt, set_last_data (_data message) st2)
      | (Raise e, st2) => (Raise e, st2)
      end
  | (Raise e, st1) => (Raise e, st1)
  end.
Proof.
  unfold run_message, bind, modify.
  destruct (run_dispatch message st) as [[u|e] st1]; [|reflexivity].
  destruct (run_send_queue message st1) as [[u'|e] st2]; reflexivity.
Qed.

(** ** The classifier *)

Lemma run_callbacks_response_channel (message : Message) (c e : Z)
  (rest : list Z) (st : Ant) :
  _id message = ID.RESPONSE_CHANNEL ->
  _data message = c :: e :: rest ->
  run_callbacks message st =
  (Ok tt,
   set_delivered
     (delivered st ++
      [if e =? 1 then ChannelEvent c e rest else Response (Some c) e rest]) st).
Proof.
  intros Hid Hd. unfold run_callbacks. rewrite Hid, Hd.
  unfold bind, lift, getitem, ret; cbn.
  destruct (e =? 1); reflexivity.
Qed.

(** C7: a decoded frame with the generic channel-response id and payload
    [c :: e :: rest] goes to the response callback as [(c, e, rest)] when
    [e] is not 1, and to the channel-event callback as [(c, e, rest)] when
    [e] is 1.  Nothing else is delivered for it, and the iteration ends by
    remembering its payload. *)
Theorem response_channel_dispatch (message : Message) (c e : Z)
  (rest : list Z) (st : Ant) :
  _id message = ID.RESPONSE_CHANNEL ->
  _data message = c :: e :: rest ->
  (e <> 1 ->
   run_message message st =
   (Ok tt,
    set_last_data (c :: e :: rest)
      (set_delivered (delivered st ++ [Response (Some c) e rest]) st))) /\
  (e = 1 ->
   run_message message st =
   (Ok tt,
    set_last_data (c :: e :: rest)
      (set_delivered (delivered st ++ [ChannelEvent c e rest]) st))).
Proof.
  intros Hid Hd.
  assert (H : run_message message st =
              (Ok tt,
               set_last_data (c :: e :: rest)
                 (set_delivered
                    (delivered st ++
                     [if e =? 1 then ChannelEvent c e rest
                      else Response (Some c) e rest]) st))).
  { rewrite run_message_unfold, run_dispatch_unfold.
    replace (_id message =? ID.BROADCAST_DATA) with false
      by (rewrite Hid; reflexivity).
    cbn [andb negb].
    rewrite (run_callbacks_response_channel message c e rest st Hid Hd).
    rewrite run_send_queue_not_broadcast by (rewrite Hid; discriminate).
    rewrite Hd. reflexivity. }
  split; intros He; rewrite H.
  - apply Z.eqb_neq in He. rewrite He. reflexivity.
  - apply Z.eqb_eq in He. rewrite He. reflexivity.
Qed.

Lemma response_channel_dispatch_witness :
  run_message (frame ID.RESPONSE_CHANNEL [0; 5; 0x4f]) (Ant_init []) =
  (Ok tt,
   set_last_data [0; 5; 0x4f]
     (set_delivered (delivered (Ant_init []) ++ [Response (Some 0) 5 [0x4f]])
        (Ant_init []))) /\
  run_message (frame ID.RESPONSE_CHANNEL [0; 1; 0]) (Ant_init []) =
  (Ok tt,
   set_last_data [0; 1; 0]
     (set_delivered (delivered (Ant_init []) ++ [ChannelEvent 0 1 [0]])
        (Ant_init []))).
Proof.
  split.
  - apply (proj1 (response_channel_dispatch
                    (frame ID.RESPONSE_CHANNEL [0; 5; 0x4f]) 0 5 [0x4f]
                    (Ant_init []) eq_refl eq_refl)).
    discriminate.
  - apply (proj2 (response_channel_dispatch
                    (frame ID.RESPONSE_CHANNEL [0; 1; 0]) 0 1 [0]
                    (Ant_init []) eq_refl eq_refl)).
    reflexivity.
Defined.

(** A channel-response frame with a single payload byte has no secondary
    code to look at: the iteration raises and nothing is delivered. *)
Example response_channel_short :
  run_message (frame ID.RESPONSE_CHANNEL [0]) (Ant_init [])
  = (Raise IndexError, Ant_init []).
Proof. reflexivity. Qed.

(** ** What the callbacks touch *)

Lemma keeps_response_function {F : Type} (f : Ant -> F) channel event data :
  (forall d st, f (set_delivered d st) = f st) ->
  keeps f (response_function channel event data).
Proof. intros H st. apply H. Qed.

Lemma keeps_channel_event_function {F : Type} (f : Ant -> F) channel event data :
  (forall d st, f (set_delivered d st) = f st) ->
  keeps f (channel_event_function channel event data).
Proof. intros H st. apply H. Qed.

Lemma keeps_on_burst_data {F : Type} (f : Ant -> F) (message : Message) :
  (forall d st, f (set_delivered d st) = f st) ->
  (forall b st, f (set_burst_data b st) = f st) ->
  keeps f (_on_burst_data message).
Proof.
  intros Hd Hb. unfold _on_burst_data.
  apply keeps_bind; [apply keeps_lift|]. intros b0.
  apply keeps_bind; [apply keeps_modify; intros st; apply Hb|]. intros _.
  apply keeps_if; [|apply keeps_ret].
  apply keeps_bind; [apply keeps_gets|]. intros acc.
  apply keeps_bind; [apply keeps_channel_event_function, Hd|]. intros _.
  apply keeps_modify. intros st. apply Hb.
Qed.

(** The callbacks change the delivery log and the burst accumulator, and
    nothing else. *)
Lemma keeps_run_callbacks {F : Type} (f : Ant -> F) (message : Message) :
  (forall d st, f (set_delivered d st) = f st) ->
  (forall b st, f (set_burst_data b st) = f st) ->
  keeps f (run_callbacks message).
Proof.
  intros Hd Hb.
  pose proof (fun c e d => keeps_response_function f c e d Hd) as Hr.
  pose proof (fun c e d => keeps_channel_event_function f c e d Hd) as Hc.
  pose proof (keeps_on_burst_data f message Hd Hb) as Hbu.
  unfold run_callbacks, _on_broadcast, _on_acknowledge.
  repeat first [ exact Hbu | apply Hr | apply Hc | apply keeps_ret
               | apply keeps_lift | apply keeps_if
               | apply keeps_bind; [|intros ?] ].
Qed.

Ltac case_id :=
  repeat match goal with
         | |- context [?i =? ?k] => destruct (Z.eqb_spec i k); [subst; cbn|]
         end.


Lemma run_callbacks_broadcast (message : Message) (c : Z) (rest : list Z)
  (st : Ant) :
  _id message = ID.BROADCAST_DATA ->
  _data message = c :: rest ->
  run_callbacks message st =
  (Ok tt,
   set_delivered
     (delivered st ++ [ChannelEvent c Code.EVENT_RX_BROADCAST rest]) st).
Proof.
  intros Hid Hd. unfold run_callbacks, _on_broadcast. rewrite Hid, Hd.
  reflexivity.
Qed.

(** ** The last payload *)


Lemma run_message_delivered (message : Message) (st : Ant) :
  delivered (snd (run_message message st)) =
  delivered (snd (run_dispatch message st)).
Proof.
  rewrite run_message_unfold.
  destruct (run_dispatch message st) as [[u|e] st1]; [|reflexivity].
  pose proof (keeps_delivered_run_send_queue message st1) as K.
  destruct (run_send_queue message st1) as [[u'|e] st2]; exact K.
Qed.








(** A payload seen on an acknowledged-data frame silences the broadcast that
    repeats it: the last payload is not only that of broadcasts. *)
Example broadcast_after_same_acknowledge :
  delivered
    (snd ((run_message (frame ID.ACKNOWLEDGE_DATA [0; 0x44; 0x84]) ;;
           run_message (frame ID.BROADCAST_DATA [0; 0x44; 0x84]))
            (Ant_init [])))
  = [ChannelEvent 0 Code.EVENT_RX_ACKNOWLEDGED [0x44; 0x84]].
Proof. reflexivity. Qed.

(** ** The send scheduler *)

Lemma sendable_payload (m : Message) :
  sendable m = true -> exists b0 rest, _data m = b0 :: rest.
Proof.
  unfold sendable. rewrite andb_true_iff. intros [_ H].
  destruct (_data m) as [|b0 rest]; [discriminate H|]. eauto.
Qed.

Lemma write_message_sendable (m : Message) (st : Ant) :
  sendable m = true -> usb_out_up st = true ->
  write_message m st = (Ok tt, set_usb_out (usb_out st ++ [wire m]) st).
Proof.
  unfold sendable. rewrite andb_true_iff. intros [Hb _] Hup.
  unfold write_message, bind, lift, get, array_B, usb_write.
  rewrite Hb, Hup. reflexivity.
Qed.

Lemma ends_timeslot_sendable (m : Message) (st : Ant) :
  sendable m = true ->
  ends_timeslot m st = (Ok (negb (keeps_draining m)), st).
Proof.
  intros Hs. destruct (sendable_payload m Hs) as (b0 & rest & Hd).
  unfold ends_timeslot, keeps_draining. rewrite Hd.
  destruct (_id m =? ID.BURST_TRANSFER_DATA); reflexivity.
Qed.

Lemma keeps_draining_false_iff (m : Message) :
  keeps_draining m = false <->
  _id m <> ID.BURST_TRANSFER_DATA \/ Z.land (hd 0 (_data m)) 0x80 <> 0.
Proof.
  unfold keeps_draining. rewrite andb_false_iff, !Z.eqb_neq. tauto.
Qed.

Lemma send_queue_loop_spec (q : list Message) : forall st,
  usb_out_up st = true ->
  forallb sendable (fst (drain_split q)) = true ->
  _message_queue st = q ->
  send_queue_loop q st =
  (Ok tt,
   set_usb_out (usb_out st ++ map wire (fst (drain_split q)))
     (set_message_queue (snd (drain_split q)) st)).
Proof.
  induction q as [|m q IH]; intros st Hup Hs Hq.
  - simpl. rewrite app_nil_r. destruct st; simpl in *; subst; reflexivity.
  - cbn [send_queue_loop drain_split] in *.
    assert (Hm : sendable m = true).
    { destruct (keeps_draining m); [destruct (drain_split q)|];
        simpl in Hs; apply andb_true_iff in Hs; tauto. }
    unfold bind at 1. cbn [modify].
    unfold bind at 1. rewrite write_message_sendable by assumption.
    unfold bind at 1. rewrite ends_timeslot_sendable by assumption.
    destruct (keeps_draining m) eqn:K; cbn [negb].
    + destruct (drain_split q) as [written left] eqn:D.
      cbn [fst snd map] in *.
      rewrite IH.
      * destruct st; cbn. rewrite <- app_assoc. reflexivity.
      * exact Hup.
      * simpl in Hs. apply andb_true_iff in Hs. tauto.
      * reflexivity.
    + destruct st; reflexivity.
Qed.

Lemma drain_split_cons (m : Message) (q : list Message) :
  drain_split (m :: q) =
  if keeps_draining m
  then (m :: fst (drain_split q), snd (drain_split q))
  else ([m], q).
Proof.
  simpl. destruct (keeps_draining m); [destruct (drain_split q)|]; reflexivity.
Qed.

Lemma drain_split_app (q : list Message) :
  q = fst (drain_split q) ++ snd (drain_split q).
Proof.
  induction q as [|m q IH]; [reflexivity|].
  rewrite drain_split_cons.
  destruct (keeps_draining m); [|reflexivity].
  simpl. f_equal. exact IH.
Qed.

Lemma drain_split_stops (m0 : Message) (q : list Message) :
  exists before m,
    fst (drain_split (m0 :: q)) = before ++ [m] /\
    forallb keeps_draining before = true /\
    (keeps_draining m = false \/ snd (drain_split (m0 :: q)) = []).
Proof.
  revert m0. induction q as [|m1 q IH]; intros m0.
  - exists [], m0. simpl. destruct (keeps_draining m0); simpl; auto.
  - rewrite drain_split_cons. destruct (keeps_draining m0) eqn:K.
    + destruct (IH m1) as (before & m & E & B & S).
      exists (m0 :: before), m. cbn [fst snd].
      rewrite E. simpl. rewrite K, B. auto.
    + exists [], m0. simpl. auto.
Qed.

(** C2: on an inbound broadcast-data frame, with the queue lock free, the
    reader pops the front frame and writes it, and goes on doing so only
    while the frame just written is a burst-transfer-data frame whose first
    payload byte has the 0x80 bit clear; it stops when the queue is empty or
    a non-burst frame or a terminal-flagged burst frame has been written.
    For the queue [[chunk0; chunk1(terminal); ack]] one drain writes chunk0
    and chunk1, in this order, and leaves the ack queued. *)
Theorem drain_on_broadcast :
  (forall (message : Message) (st : Ant),
      _id message = ID.BROADCAST_DATA ->
      queue_busy st = false ->
      usb_out_up st = true ->
      forallb sendable (_message_queue st) = true ->
      exists written left,
        run_send_queue message st =
        (Ok tt,
         set_usb_out (usb_out st ++ map wire written)
           (set_message_queue left st)) /\
        _message_queue st = written ++ left /\
        (_message_queue st = [] -> written = []) /\
        (_message_queue st <> [] ->
         exists before m,
           written = before ++ [m] /\
           forallb keeps_draining before = true /\
           (_id m <> ID.BURST_TRANSFER_DATA \/
            Z.land (hd 0 (_data m)) 0x80 <> 0 \/
            left = []))) /\
  (forall (message chunk0 chunk1 ack : Message) (st : Ant),
      _id message = ID.BROADCAST_DATA ->
      queue_busy st = false ->
      usb_out_up st = true ->
      _message_queue st = [chunk0; chunk1; ack] ->
      sendable chunk0 = true ->
      sendable chunk1 = true ->
      _id chunk0 = ID.BURST_TRANSFER_DATA ->
      Z.land (hd 0 (_data chunk0)) 0x80 = 0 ->
      _id chunk1 = ID.BURST_TRANSFER_DATA ->
      Z.land (hd 0 (_data chunk1)) 0x80 <> 0 ->
      run_send_queue message st =
      (Ok tt,
       set_usb_out (usb_out st ++ [wire chunk0; wire chunk1])
         (set_message_queue [ack] st))).
Proof.
  assert (R : forall message st,
             _id message = ID.BROADCAST_DATA ->
             queue_busy st = false ->
             run_send_queue message st =
             send_queue_loop (_message_queue st) st).
  { intros message st Hid Hbusy. unfold run_send_queue.
    rewrite Hid, Z.eqb_refl. unfold bind, gets.
    rewrite Hbusy. reflexivity. }
  split.
  - intros message st Hid Hbusy Hup Hs.
    exists (fst (drain_split (_message_queue st))),
           (snd (drain_split (_message_queue st))).
    pose proof (drain_split_app (_message_queue st)) as A.
    split.
    { rewrite R by assumption. apply send_queue_loop_spec; [exact Hup| |reflexivity].
      rewrite A, forallb_app in Hs. apply andb_true_iff in Hs. tauto. }
    split; [exact A|]. split.
    + intros ->. reflexivity.
    + intros Hne. destruct (_message_queue st) as [|m0 q]; [contradiction|].
      destruct (drain_split_stops m0 q) as (before & m & E & B & S).
      exists before, m. split; [exact E|]. split; [exact B|].
      destruct S as [S|S]; [|auto].
      apply keeps_draining_false_iff in S. tauto.
  - intros message chunk0 chunk1 ack st Hid Hbusy Hup Hq S0 S1 I0 F0 I1 F1.
    assert (K0 : keeps_draining chunk0 = true).
    { unfold keeps_draining. rewrite I0, F0. reflexivity. }
    assert (K1 : keeps_draining chunk1 = false).
    { apply keeps_draining_false_iff. auto. }
    assert (D : drain_split [chunk0; chunk1; ack] = ([chunk0; chunk1], [ack])).
    { rewrite !drain_split_cons, K0, K1. reflexivity. }
    rewrite R by assumption.
    rewrite (send_queue_loop_spec (_message_queue st) st Hup);
      rewrite ?Hq, ?D; cbn [fst snd map forallb].
    + reflexivity.
    + rewrite S0, S1. reflexivity.
    + reflexivity.
Qed.

Lemma drain_on_broadcast_witness :
  run_send_queue (frame ID.BROADCAST_DATA [0; 0x43])
    (ant_with_queue [burst_packet 0 0 [1; 2]; burst_packet 0 (Z.lor 1 4) [3; 4];
                     frame ID.ACKNOWLEDGE_DATA [0; 9]])
  = (Ok tt,
     set_usb_out
       (usb_out (Ant_init []) ++
        [wire (burst_packet 0 0 [1; 2]); wire (burst_packet 0 (Z.lor 1 4) [3; 4])])
       (set_message_queue [frame ID.ACKNOWLEDGE_DATA [0; 9]]
          (ant_with_queue [burst_packet 0 0 [1; 2];
                           burst_packet 0 (Z.lor 1 4) [3; 4];
                           frame ID.ACKNOWLEDGE_DATA [0; 9]]))).
Proof.
  apply (proj2 drain_on_broadcast
           (frame ID.BROADCAST_DATA [0; 0x43])
           (burst_packet 0 0 [1; 2]) (burst_packet 0 (Z.lor 1 4) [3; 4])
           (frame ID.ACKNOWLEDGE_DATA [0; 9])
           (ant_with_queue [burst_packet 0 0 [1; 2];
                            burst_packet 0 (Z.lor 1 4) [3; 4];
                            frame ID.ACKNOWLEDGE_DATA [0; 9]]));
    try reflexivity.
  discriminate.
Defined.

(** The bytes that reach the endpoint in that drain. *)
Example drain_bytes :
  usb_out
    (snd (run_send_queue (frame ID.BROADCAST_DATA [0; 0x43])
            (ant_with_queue [burst_packet 0 0 [1; 2];
                             burst_packet 0 (Z.lor 1 4) [3; 4];
                             frame ID.ACKNOWLEDGE_DATA [0; 9]])))
  = [[0xa4; 3; 0x50; 0x00; 1; 2; 0xf4; 0; 0];
     [0xa4; 3; 0x50; 0xa0; 3; 4; 0x50; 0; 0]].
Proof. reflexivity. Qed.

(** With the lock held elsewhere the broadcast sends nothing. *)
Lemma run_send_queue_busy (message : Message) (st : Ant) :
  queue_busy st = true -> run_send_queue message st = (Ok tt, st).
Proof.
  intros H. unfold run_send_queue.
  destruct (_id message =? ID.BROADCAST_DATA); [|reflexivity].
  unfold bind, gets. rewrite H. reflexivity.
Qed.

(** ** Commands *)

Lemma write_message_timeslot_appends (m : Message) (st : Ant) :
  write_message_timeslot m st =
  (Ok tt, set_message_queue (_message_queue st ++ [m]) st).
Proof. reflexivity. Qed.

Lemma send_burst_transfer_packet_appends (channelSeq : Z) (data : list Z)
  (first : bool) (st : Ant) :
  send_burst_transfer_packet channelSeq data first st =
  (Ok tt,
   set_message_queue
     (_message_queue st ++ [frame ID.BURST_TRANSFER_DATA (channelSeq :: data)])
     st).
Proof.
  unfold send_burst_transfer_packet. cbn [app].
  unfold bind, lift. rewrite Message_init_nonempty. reflexivity.
Qed.

(** The byte computed in the loop of [send_burst_transfer] is the one the
    specification names. *)
Lemma channelSeq_of_loop (channel : Z) (i n : nat) :
  Z.lor channel
    (Z.shiftl (if Z.of_nat i =? Z.of_nat n - 1
               then Z.lor (Z.of_nat i mod 4) LAST_SEQUENCE
               else Z.of_nat i mod 4) 5)
  = burst_channelSeq channel i n.
Proof.
  unfold burst_channelSeq, LAST_SEQUENCE.
  destruct (Z.eqb_spec (Z.of_nat i) (Z.of_nat n - 1)) as [E|E];
    destruct (Nat.eqb_spec (S i) n) as [E'|E']; try lia.
  rewrite Z.shiftl_lor, Z.lor_assoc. reflexivity.
Qed.

Lemma send_burst_transfer_from (channel : Z) (chunks : list (list Z)) :
  forall (rest : list (list Z)) (k : nat) (st : Ant),
    (forall j, (j < length rest)%nat ->
               nth (k + j) chunks [] = nth j rest []) ->
    for_each (seq k (length rest)) (fun i =>
      let sequence := Z.of_nat i mod 4 in
      let sequence :=
        if Z.of_nat i =? Z.of_nat (length chunks) - 1
        then Z.lor sequence LAST_SEQUENCE else sequence in
      let channelSeq := Z.lor channel (Z.shiftl sequence 5) in
      send_burst_transfer_packet channelSeq (nth i chunks []) (Nat.eqb i 0)) st
    = (Ok tt,
       set_message_queue
         (_message_queue st ++ burst_frames channel (length chunks) k rest) st).
Proof.
  induction rest as [|chunk rest IH]; intros k st Hnth.
  - simpl. rewrite app_nil_r. destruct st; reflexivity.
  - cbn [length seq for_each burst_frames].
    unfold bind at 1. cbv zeta.
    rewrite send_burst_transfer_packet_appends, channelSeq_of_loop.
    pose proof (Hnth 0%nat ltac:(simpl; lia)) as H0.
    rewrite Nat.add_0_r in H0. cbn [nth] in H0. rewrite H0.
    rewrite IH.
    + destruct st; cbn. rewrite <- app_assoc. reflexivity.
    + intros j Hj. specialize (Hnth (S j) ltac:(simpl; lia)).
      rewrite Nat.add_succ_r in Hnth. exact Hnth.
Qed.

Lemma burst_frames_length (channel : Z) (n : nat) (rest : list (list Z)) :
  forall i, length (burst_frames channel n i rest) = length rest.
Proof.
  induction rest as [|c rest IH]; intros i; simpl; [reflexivity|].
  rewrite IH. reflexivity.
Qed.

Lemma burst_frames_nth (channel : Z) (n : nat) (rest : list (list Z)) :
  forall k i chunk,
    nth_error rest i = Some chunk ->
    nth_error (burst_frames channel n k rest) i =
    Some (frame ID.BURST_TRANSFER_DATA
                (burst_channelSeq channel (k + i) n :: chunk)).
Proof.
  induction rest as [|c rest IH]; intros k i chunk H.
  - destruct i; discriminate H.
  - destruct i as [|i]; simpl in *.
    + injection H as ->. rewrite Nat.add_0_r. reflexivity.
    + rewrite (IH (S k) i chunk H), Nat.add_succ_r. reflexivity.
Qed.

(** C8: [send_burst_transfer(channel, chunks)] appends to the timeslot
    queue, in chunk order, one burst-transfer-data frame per chunk; the first
    payload byte of the [i]-th frame is [channel | ((i % 4) << 5)], for the
    final chunk with [0b100 << 5] set as well, and the remaining payload
    bytes are the chunk.  Nothing is written to the endpoint. *)
Theorem send_burst_transfer_enqueues (channel : Z) (chunks : list (list Z))
  (st : Ant) :
  exists frames,
    send_burst_transfer channel chunks st =
    (Ok tt, set_message_queue (_message_queue st ++ frames) st) /\
    length frames = length chunks /\
    forall i chunk,
      nth_error chunks i = Some chunk ->
      exists m,
        nth_error frames i = Some m /\
        Message_init ID.BURST_TRANSFER_DATA
          ((if Nat.eqb (S i) (length chunks)
            then Z.lor (Z.lor channel (Z.shiftl (Z.of_nat i mod 4) 5))
                       (Z.shiftl 4 5)
            else Z.lor channel (Z.shiftl (Z.of_nat i mod 4) 5)) :: chunk)
        = Ok m /\
        _id m = ID.BURST_TRANSFER_DATA /\
        _data m = burst_channelSeq channel i (length chunks) :: chunk.
Proof.
  exists (burst_frames channel (length chunks) 0 chunks).
  split; [|split].
  - unfold send_burst_transfer. apply send_burst_transfer_from.
    intros j _. reflexivity.
  - apply burst_frames_length.
  - intros i chunk H. eexists. split; [apply burst_frames_nth, H|].
    rewrite Message_init_nonempty. unfold burst_channelSeq. cbn [Nat.add].
    destruct (Nat.eqb (S i) (length chunks)); repeat split; reflexivity.
Qed.

Example send_burst_transfer_three :
  map _data
    (_message_queue
       (snd (send_burst_transfer 3 [[1; 2]; [3; 4]; [5]] (Ant_init []))))
  = [[0x03; 1; 2]; [0x23; 3; 4]; [0xc3; 5]].
Proof. reflexivity. Qed.

(** The sequence code wraps after four chunks. *)
Example send_burst_transfer_six :
  map (fun m => hd 0 (_data m))
    (_message_queue
       (snd (send_burst_transfer 0 [[1]; [2]; [3]; [4]; [5]; [6]] (Ant_init []))))
  = [0x00; 0x20; 0x40; 0x60; 0x00; 0xa0].
Proof. reflexivity. Qed.

Lemma frame_sendable (mId x : Z) (xs : list Z) :
  is_byte mId = true -> forallb is_byte (x :: xs) = true ->
  Z.of_nat (length (x :: xs)) <= 255 ->
  sendable (frame mId (x :: xs)) = true.
Proof.
  intros Hid Hp Hlen. unfold sendable, frame.
  cbn [_sync _length _id _data _checksum]. rewrite andb_true_r.
  rewrite !forallb_is_byte_app. cbn [forallb] in *.
  rewrite Hid, Hp, (frame_checksum_is_byte mId (x :: xs) Hid Hp Hlen).
  replace (is_byte (Z.of_nat (length (x :: xs)))) with true
    by (symmetry; apply is_byte_iff; lia).
  reflexivity.
Qed.

(** C10: whatever the [channel] argument, [request_message] writes the frame
    with payload [[0x00, messageId]] and [send_acknowledged_data] queues the
    frame with payload [[0x00] ++ data]; the channel byte is always 0x00 and
    neither result depends on [channel]. *)
Theorem channel_argument_ignored (channel messageId : Z) (data : list Z)
  (st : Ant) :
  request_message channel messageId st =
  write_message (frame ID.REQUEST_MESSAGE [0x00; messageId]) st /\
  (is_byte messageId = true -> usb_out_up st = true ->
   request_message channel messageId st =
   (Ok tt,
    set_usb_out
      (usb_out st ++
       [frame_bytes ID.REQUEST_MESSAGE [0x00; messageId] ++ [0x00; 0x00]])
      st)) /\
  send_acknowledged_data channel data st =
  (Ok tt,
   set_message_queue
     (_message_queue st ++ [frame ID.ACKNOWLEDGE_DATA ([0x00] ++ data)]) st) /\
  (forall channel' : Z,
      request_message channel' messageId st =
      request_message channel messageId st /\
      send_acknowledged_data channel' data st =
      send_acknowledged_data channel data st).
Proof.
  assert (R : request_message channel messageId st =
              write_message (frame ID.REQUEST_MESSAGE [0x00; messageId]) st).
  { unfold request_message, bind, lift.
    rewrite Message_init_nonempty. reflexivity. }
  split; [exact R|]. split; [|split].
  - intros Hm Hup. rewrite R.
    rewrite write_message_sendable; [reflexivity| |exact Hup].
    apply frame_sendable; [reflexivity| |simpl; lia].
    cbn [forallb]. rewrite Hm. reflexivity.
  - unfold send_acknowledged_data, bind, lift. cbn [app].
    rewrite Message_init_nonempty. reflexivity.
  - intros channel'. split; reflexivity.
Qed.

Lemma channel_argument_ignored_witness :
  request_message 5 ID.RESPONSE_CAPABILITIES (Ant_init []) =
  (Ok tt,
   set_usb_out
     (usb_out (Ant_init []) ++
      [frame_bytes ID.REQUEST_MESSAGE [0x00; ID.RESPONSE_CAPABILITIES]
         ++ [0x00; 0x00]])
     (Ant_init [])).
Proof.
  apply (proj1 (proj2 (channel_argument_ignored 5 ID.RESPONSE_CAPABILITIES []
                         (Ant_init [])))); reflexivity.
Defined.

Example request_message_bytes :
  usb_out (snd (request_message 5 ID.RESPONSE_CAPABILITIES (Ant_init [])))
  = [[0xa4; 2; 0x4d; 0x00; 0x54; 0xbf; 0; 0]].
Proof. reflexivity. Qed.

(** A message id that is not a byte cannot be put on the wire. *)
Example request_message_overflow :
  request_message 0 300 (Ant_init []) = (Raise OverflowError, Ant_init []).
Proof. reflexivity. Qed.

(** ** The reader loop, end to end *)

(** Three burst packets on channel 3 arriving in two reads: one event, with
    the three data parts in order. *)
Example run_burst_reassembly :
  delivered
    (snd (run 3
            (Ant_init
               [Ok [0xa4; 3; 0x50; 0x03; 1; 2; 0xf7; 0xa4; 3; 0x50];
                Ok [0x23; 3; 4; 0xd3; 0xa4; 2; 0x50; 0xc3; 5; 0x30; 0xa4]])))
  = [ChannelEvent 3 Code.EVENT_RX_BURST_PACKET [1; 2; 3; 4; 5]].
Proof. reflexivity. Qed.

(** A read that times out is logged and the loop goes on. *)
Example run_survives_timeout :
  fst (run 2 (Ant_init [Raise USBError])) = Ok tt.
Proof. reflexivity. Qed.

(** When the write of a queued frame fails, the iteration is cut short and
    the last payload is not updated: the broadcast is delivered again. *)
Example run_write_failure_redelivers :
  delivered
    (snd (run 2
            (mkAnt [0xa4; 2; 0x4e; 0; 7; 0xef; 0xa4; 2; 0x4e; 0; 7; 0xef; 0xa4]
                   [] [] [frame ID.ACKNOWLEDGE_DATA [0; 9]] true [] [] false
                   false [])))
  = [ChannelEvent 0 Code.EVENT_RX_BROADCAST [7];
     ChannelEvent 0 Code.EVENT_RX_BROADCAST [7]].
Proof. reflexivity. Qed.

(** * Further properties of the module *)

(** ** Decoding *)

Lemma xor_all_fold (l : list Z) (a : Z) :
  fold_left Z.lxor l a = Z.lxor a (xor_all l).
Proof.
  unfold xor_all. rewrite <- fold_lxor_shift, Z.lxor_0_r. reflexivity.
Qed.

Lemma xor_all_cons (x : Z) (l : list Z) :
  xor_all (x :: l) = Z.lxor x (xor_all l).
Proof. unfold xor_all at 1. simpl. apply xor_all_fold. Qed.

Lemma xor_all_app (l1 l2 : list Z) :
  xor_all (l1 ++ l2) = Z.lxor (xor_all l1) (xor_all l2).
Proof.
  unfold xor_all at 1. rewrite fold_left_app, xor_all_fold. reflexivity.
Qed.

Lemma frame_checksum_xor_all (mId : Z) (payload : list Z) :
  frame_checksum mId payload =
  xor_all (0xa4 :: Z.of_nat (length payload) :: mId :: payload).
Proof.
  unfold frame_checksum. rewrite xor_all_fold, xor_all_cons. reflexivity.
Qed.

(** The wire image of a frame has exclusive-or zero. *)
Lemma xor_all_frame_bytes (mId : Z) (payload : list Z) :
  xor_all (frame_bytes mId payload) = 0.
Proof.
  unfold frame_bytes.
  rewrite app_assoc, xor_all_app, frame_checksum_xor_all.
  cbn [app]. rewrite xor_all_cons with (l := []).
  change (xor_all []) with 0. rewrite Z.lxor_0_r. apply Z.lxor_nilpotent.
Qed.

(** What [parse] does with five elements or more: the three asserts, and
    then a frame. *)
Lemma parse_long (buf : list Z) :
  (5 <= length buf)%nat ->
  parse buf =
  if (nth 0 buf 0 =? 0xa4)
     && (nth 1 buf 0 =? Z.of_nat (length buf) - 4)
     && (xor_all buf =? 0)
  then Ok (frame (nth 2 buf 0) (removelast (skipn 3 buf)))
  else Raise AssertionError.
Proof.
  intros Hlen.
  destruct buf as [|s [|l [|i rest]]]; try (simpl in Hlen; lia).
  destruct (exists_last (l := rest)) as (data & c & ->).
  { intros ->. simpl in Hlen. lia. }
  destruct data as [|x xs].
  { simpl in Hlen. lia. }
  unfold parse. cbn [nth skipn].
  rewrite removelast_last.
  replace (last (s :: l :: i :: (x :: xs) ++ [c]) 0) with c.
  2:{ change (s :: l :: i :: (x :: xs) ++ [c])
        with ([s; l; i] ++ (x :: xs) ++ [c]).
      rewrite app_assoc, last_last. reflexivity. }
  replace (removelast (s :: l :: i :: (x :: xs) ++ [c]))
    with (s :: l :: i :: x :: xs).
  2:{ change (s :: l :: i :: (x :: xs) ++ [c])
        with ([s; l; i] ++ (x :: xs) ++ [c]).
      rewrite app_assoc, removelast_last. reflexivity. }
  cbn [reduce].
  replace (Z.of_nat (length (s :: l :: i :: (x :: xs) ++ [c])) - 4)
    with (Z.of_nat (length (x :: xs))).
  2:{ cbn [length]. rewrite length_app. cbn [length]. lia. }
  replace (xor_all (s :: l :: i :: (x :: xs) ++ [c]) =? 0)
    with (c =? fold_left Z.lxor (l :: i :: x :: xs) s).
  2:{ change (s :: l :: i :: (x :: xs) ++ [c])
        with ((s :: l :: i :: x :: xs) ++ [c]).
      rewrite xor_all_app, (xor_all_cons c []), xor_all_cons.
      change (xor_all []) with 0. rewrite Z.lxor_0_r, xor_all_fold.
      destruct (Z.eqb_spec c (Z.lxor s (xor_all (l :: i :: x :: xs)))) as [E|E];
        symmetry.
      - apply Z.eqb_eq. rewrite E. apply Z.lxor_nilpotent.
      - apply Z.eqb_neq. intros H. apply Z.lxor_eq in H. congruence. }
  destruct (s =? 164); [|reflexivity].
  destruct (l =? Z.of_nat (length (x :: xs))) eqn:El; [|reflexivity].
  destruct (c =? fold_left Z.lxor (l :: i :: x :: xs) s) eqn:Ec; [|reflexivity].
  cbn [negb andb]. apply Z.eqb_eq in El, Ec.
  rewrite Message_init_nonempty. unfold frame. do 2 f_equal.
Qed.

Lemma frame_bytes_length (mId : Z) (payload : list Z) :
  length (frame_bytes mId payload) = (length payload + 4)%nat.
Proof.
  unfold frame_bytes. cbn [app length]. rewrite length_app. cbn [length]. lia.
Qed.

Lemma frame_bytes_payload (mId : Z) (payload : list Z) :
  removelast (skipn 3 (frame_bytes mId payload)) = payload.
Proof. unfold frame_bytes. cbn [app skipn]. apply removelast_last. Qed.

(** X1: [parse] returns a frame exactly on the wire images of frames with a
    payload, and the frame it returns is the one whose image it was given. *)
Theorem parse_ok_iff_frame_bytes (buf : list Z) (m : Message) :
  parse buf = Ok m <->
  exists mId x xs,
    buf = frame_bytes mId (x :: xs) /\ m = frame mId (x :: xs).
Proof.
  split.
  - intros H.
    destruct (Nat.lt_ge_cases (length buf) 5) as [Hs|Hl].
    + exfalso.
      destruct buf as [|s [|l [|i [|a [|b rest]]]]];
        try discriminate H; try (simpl in Hs; lia);
        unfold parse in H; cbn in H;
        repeat match type of H with
               | context [if ?c then _ else _] => destruct c
               end; discriminate H.
    + rewrite parse_long in H by exact Hl.
      destruct (nth 0 buf 0 =? 164) eqn:E0; [|discriminate H].
      destruct (nth 1 buf 0 =? Z.of_nat (length buf) - 4) eqn:E1;
        [|discriminate H].
      destruct (xor_all buf =? 0) eqn:E2; [|discriminate H].
      cbn [andb] in H. injection H as <-.
      apply Z.eqb_eq in E0, E1, E2.
      destruct buf as [|s [|l [|i rest]]]; try (simpl in Hl; lia).
      destruct (exists_last (l := rest)) as (data & c & ->).
      { intros ->. simpl in Hl. lia. }
      destruct data as [|x xs]; [simpl in Hl; lia|].
      cbn [nth skipn] in *. rewrite removelast_last.
      exists i, x, xs. split; [|reflexivity].
      unfold frame_bytes. cbn [app]. subst s.
      assert (Hlen : l = Z.of_nat (length (x :: xs))).
      { rewrite E1. cbn [length]. rewrite length_app. cbn [length]. lia. }
      subst l. do 4 f_equal. f_equal.
      change (164 :: Z.of_nat (length (x :: xs)) :: i :: (x :: xs) ++ [c])
        with ((164 :: Z.of_nat (length (x :: xs)) :: i :: x :: xs) ++ [c]) in E2.
      rewrite xor_all_app, (xor_all_cons c []) in E2.
      change (xor_all []) with 0 in E2. rewrite Z.lxor_0_r in E2.
      apply Z.lxor_eq in E2. rewrite frame_checksum_xor_all. symmetry.
      f_equal. exact E2.
  - intros (mId & x & xs & -> & ->).
    rewrite parse_frame_bytes. apply Message_init_nonempty.
Qed.

Lemma parse_ok_iff_frame_bytes_witness :
  parse [0xa4; 2; 0x4e; 0; 7; 0xef] = Ok (frame 0x4e [0; 7]).
Proof.
  apply (proj2 (parse_ok_iff_frame_bytes [0xa4; 2; 0x4e; 0; 7; 0xef]
                  (frame 0x4e [0; 7]))).
  exists 0x4e, 0, [7]. split; reflexivity.
Defined.

Lemma set_at_app (a : list Z) (y v : Z) (b : list Z) :
  set_at (length a) v (a ++ y :: b) = a ++ v :: b.
Proof.
  unfold set_at. induction a as [|x a IH]; [reflexivity|].
  cbn [length app firstn skipn] in *. f_equal. exact IH.
Qed.

Lemma xor_all_set_at (i : nat) (v : Z) (l : list Z) :
  (i < length l)%nat ->
  xor_all (set_at i v l) = Z.lxor (Z.lxor (xor_all l) (nth i l 0)) v.
Proof.
  intros Hi. destruct (nth_split l 0 Hi) as (a & b & E & <-).
  set (y := nth (length a) l 0) in *. clearbody y. subst l.
  rewrite set_at_app, !xor_all_app, !xor_all_cons.
  set (A := xor_all a). set (B := xor_all b).
  rewrite (Z.lxor_comm y B), (Z.lxor_comm v B).
  rewrite !Z.lxor_assoc.
  rewrite <- (Z.lxor_assoc y y v), Z.lxor_nilpotent, Z.lxor_0_l.
  reflexivity.
Qed.

Lemma set_at_length (i : nat) (v : Z) (l : list Z) :
  (i < length l)%nat -> length (set_at i v l) = length l.
Proof.
  intros Hi. destruct (nth_split l 0 Hi) as (a & b & E & <-).
  set (y := nth (length a) l 0) in *. clearbody y. subst l.
  rewrite set_at_app, !length_app. reflexivity.
Qed.

Lemma set_at_nth_other (i j : nat) (v : Z) (l : list Z) :
  (i < length l)%nat -> j <> i -> nth j (set_at i v l) 0 = nth j l 0.
Proof.
  intros Hi Hj. destruct (nth_split l 0 Hi) as (a & b & E & <-).
  set (y := nth (length a) l 0) in *. clearbody y. subst l.
  rewrite set_at_app.
  destruct (Nat.lt_ge_cases j (length a)) as [Hlt|Hge].
  - rewrite !app_nth1 by exact Hlt. reflexivity.
  - rewrite !app_nth2 by exact Hge.
    destruct (j - length a)%nat as [|k] eqn:Ek; [lia|]. reflexivity.
Qed.

Lemma set_at_nth_same (i : nat) (v : Z) (l : list Z) :
  (i < length l)%nat -> nth i (set_at i v l) 0 = v.
Proof.
  intros Hi. destruct (nth_split l 0 Hi) as (a & b & E & <-).
  set (y := nth (length a) l 0) in *. clearbody y. subst l.
  rewrite set_at_app, app_nth2, Nat.sub_diag by lia.
  reflexivity.
Qed.

(** X2: changing any one element of the wire image of a frame, whichever
    and to whatever other value, makes [parse] fail an assert. *)
Theorem parse_detects_one_changed_byte (mId x : Z) (xs : list Z) (i : nat)
  (v : Z) :
  (i < length (frame_bytes mId (x :: xs)))%nat ->
  v <> nth i (frame_bytes mId (x :: xs)) 0 ->
  parse (set_at i v (frame_bytes mId (x :: xs))) = Raise AssertionError.
Proof.
  intros Hi Hv. set (buf := frame_bytes mId (x :: xs)) in *.
  assert (Hlen : length buf = (length (x :: xs) + 4)%nat)
    by apply frame_bytes_length.
  rewrite parse_long
    by (rewrite set_at_length by exact Hi; rewrite Hlen; cbn [length]; lia).
  rewrite set_at_length by exact Hi.
  destruct i as [|[|i]].
  - rewrite set_at_nth_same by exact Hi.
    replace (v =? 164) with false; [reflexivity|].
    symmetry. apply Z.eqb_neq. exact Hv.
  - rewrite set_at_nth_same by exact Hi.
    replace (v =? Z.of_nat (length buf) - 4) with false;
      [rewrite andb_false_r; reflexivity|].
    symmetry. apply Z.eqb_neq. intros E. apply Hv. rewrite E, Hlen.
    unfold buf, frame_bytes. cbn [app nth length]. lia.
  - rewrite xor_all_set_at by exact Hi.
    assert (Hx : xor_all buf = 0) by apply xor_all_frame_bytes.
    rewrite Hx, Z.lxor_0_l.
    replace (Z.lxor (nth (S (S i)) buf 0) v =? 0) with false;
      [rewrite andb_false_r; reflexivity|].
    symmetry. apply Z.eqb_neq. intros E. apply Z.lxor_eq in E. congruence.
Qed.

Lemma parse_detects_one_changed_byte_witness :
  parse (set_at 4 1 (frame_bytes 0x4e [0; 0x44])) = Raise AssertionError.
Proof.
  apply (parse_detects_one_changed_byte 0x4e 0 [0x44] 4 1).
  - simpl. lia.
  - simpl. lia.
Defined.

(** X3: nothing shorter than five elements is decoded: under three elements
    the header subscripts are out of range, and with three or four there is
    no payload, so that an assert fails or the constructor raises. *)
Theorem parse_rejects_short (buf : list Z) :
  ((length buf < 3)%nat -> parse buf = Raise IndexError) /\
  ((3 <= length buf < 5)%nat ->
   parse buf = Raise AssertionError \/ parse buf = Raise TypeError) /\
  (forall mId, parse [0xa4; 0; mId; Z.lxor 0xa4 mId] = Raise TypeError).
Proof.
  split; [|split].
  - intros H. destruct buf as [|s [|l [|i rest]]]; try reflexivity.
    simpl in H. lia.
  - intros H.
    destruct buf as [|s [|l [|i [|a [|b rest]]]]]; try (simpl in H; lia);
      unfold parse; cbn;
      repeat match goal with
             | |- context [if ?c then _ else _] => destruct c
             end; auto.
  - intros mId. unfold parse. cbn.
    rewrite Z.eqb_refl. reflexivity.
Qed.

Lemma parse_rejects_short_witness :
  parse [0xa4; 1] = Raise IndexError.
Proof.
  apply (proj1 (parse_rejects_short [0xa4; 1])). simpl. lia.
Defined.

(** ** Reading across chunk boundaries *)


Lemma message_in_buffer_frame (b extra : list Z) (mId x : Z) (xs t : list Z) :
  b ++ extra = frame_bytes mId (x :: xs) ++ t ->
  message_in_buffer b = true <->
  (length (frame_bytes mId (x :: xs)) <= length b)%nat.
Proof.
  intros E. rewrite frame_bytes_length. cbn [length].
  unfold message_in_buffer. rewrite andb_true_iff, !Z.leb_le.
  assert (N : (2 <= length b)%nat -> nth 1 b 0 = Z.of_nat (S (length xs))).
  { intros H2.
    rewrite <- (app_nth1 b extra 0) by lia. rewrite E.
    rewrite app_nth1 by (rewrite frame_bytes_length; simpl; lia).
    reflexivity. }
  split.
  - intros [H5 Hn]. rewrite N in Hn by lia. lia.
  - intros H. rewrite N by lia. lia.
Qed.

Lemma read_message_frame_ready (script : list (Res (list Z))) (st : Ant)
  (mId x : Z) (xs b' : list Z) :
  _buffer st = frame_bytes mId (x :: xs) ++ b' ->
  read_message_from script st = (Ok (frame mId (x :: xs)), set_buffer b' st).
Proof.
  intros E.
  assert (R : message_in_buffer (_buffer st) = true).
  { apply (message_in_buffer_frame (_buffer st) [] mId x xs b').
    - rewrite app_nil_r. exact E.
    - rewrite E, length_app. lia. }
  rewrite read_message_from_ready by exact R. cbv zeta.
  replace (Z.to_nat (nth 1 (_buffer st) 0 + 4))
    with (length (frame_bytes mId (x :: xs))).
  2:{ rewrite E, app_nth1 by (rewrite frame_bytes_length; simpl; lia).
      rewrite frame_bytes_length. unfold frame_bytes. cbn [app nth length]. lia. }
  rewrite E, firstn_app, Nat.sub_diag, firstn_all, skipn_app, Nat.sub_diag,
    skipn_all.
  cbn [firstn skipn app]. rewrite app_nil_r.
  rewrite parse_frame_bytes, Message_init_nonempty. reflexivity.
Qed.



(** ** What ends the reader loop and what does not *)

Lemma Message_init_raises (mId : Z) (data : list Z) (e : Exn) :
  Message_init mId data = Raise e -> e = TypeError.
Proof.
  destruct data as [|x xs]; [intros H; injection H; auto|].
  rewrite Message_init_nonempty. discriminate.
Qed.

Lemma parse_raises (buf : list Z) (e : Exn) :
  parse buf = Raise e ->
  e = IndexError \/ e = AssertionError \/ e = TypeError.
Proof.
  unfold parse.
  destruct buf as [|s [|l [|i rest]]];
    try (intros H; injection H as <-; auto).
  destruct (negb (s =? 164)); [intros H; injection H as <-; auto|].
  destruct (negb (l =? Z.of_nat (length (removelast rest))));
    [intros H; injection H as <-; auto|].
  cbn [reduce removelast].
  destruct (negb _); [intros H; injection H as <-; auto|].
  intros H. apply Message_init_raises in H. auto.
Qed.

Lemma run_iteration_raises (st st' : Ant) (e : Exn) :
  run_body st = (Raise e, st') -> e <> USBError ->
  run_iteration st = (Raise e, st').
Proof.
  intros H He. unfold run_iteration. rewrite H.
  destruct e; try reflexivity. contradiction.
Qed.

Lemma run_step (fuel : nat) (st : Ant) :
  _running st = true ->
  run (S fuel) st =
  match run_iteration st with
  | (Ok _, st') => run fuel st'
  | (Raise e, st') => (Raise e, st')
  end.
Proof.
  intros H. cbn [run]. unfold bind, gets. rewrite H.
  destruct (run_iteration st) as [[u|e] st']; reflexivity.
Qed.

(** X5: when the bytes at the front of the buffer do not decode, they are
    taken out of the buffer all the same, and the exception is not one the
    loop catches: [run] ends with it, whatever is still to be read. *)
Theorem decode_failure_ends_run (st : Ant) (e : Exn) (fuel : nat) :
  _running st = true ->
  message_in_buffer (_buffer st) = true ->
  parse (firstn (Z.to_nat (nth 1 (_buffer st) 0 + 4)) (_buffer st)) = Raise e ->
  run (S fuel) st =
  (Raise e,
   set_buffer (skipn (Z.to_nat (nth 1 (_buffer st) 0 + 4)) (_buffer st)) st)
  /\ e <> USBError.
Proof.
  intros Hrun Hready Hparse.
  assert (He : e <> USBError).
  { destruct (parse_raises _ _ Hparse) as [->|[->| ->]]; discriminate. }
  split; [|exact He].
  rewrite run_step by exact Hrun.
  rewrite (run_iteration_raises st
             (set_buffer (skipn (Z.to_nat (nth 1 (_buffer st) 0 + 4))
                            (_buffer st)) st) e); [reflexivity| |exact He].
  unfold run_body, bind, read_message.
  rewrite read_message_from_ready by exact Hready. cbv zeta.
  rewrite Hparse. reflexivity.
Qed.

Lemma decode_failure_ends_run_witness :
  run 3 (ant_with_buffer [0xa4; 1; 0x4e; 7; 0xff; 0xa4; 1; 0x4e; 7; 0xec] [])
  = (Raise AssertionError, ant_with_buffer [0xa4; 1; 0x4e; 7; 0xec] [])
  /\ AssertionError <> USBError.
Proof.
  apply (decode_failure_ends_run
           (ant_with_buffer [0xa4; 1; 0x4e; 7; 0xff; 0xa4; 1; 0x4e; 7; 0xec] [])
           AssertionError 2); reflexivity.
Defined.




(** ** The classifier, the other identifiers *)

(** X7: one message gives one callback at most: the two notification tests
    and the chain that follows them never fire together. *)
Theorem at_most_one_delivery (message : Message) (st : Ant) :
  delivered (snd (run_message message st)) = delivered st \/
  exists d, delivered (snd (run_message message st)) = delivered st ++ [d].
Proof.
  rewrite run_message_delivered, run_dispatch_unfold.
  destruct (negb _); [|left; reflexivity].
  destruct message as [s l i d k].
  unfold run_callbacks, _on_broadcast, _on_acknowledge, _on_burst_data,
    mem, bind, lift, getitem, ret, ID.STARTUP_MESSAGE, ID.SERIAL_ERROR_MESSAGE,
    ID.RESPONSE_VERSION, ID.RESPONSE_CAPABILITIES, ID.RESPONSE_SERIAL_NUMBER,
    ID.RESPONSE_CHANNEL_STATUS, ID.RESPONSE_CHANNEL_ID, ID.RESPONSE_CHANNEL,
    ID.BROADCAST_DATA, ID.ACKNOWLEDGE_DATA, ID.BURST_TRANSFER_DATA.
  destruct d as [|c [|e rest]]; cbn;
    case_id; cbn;
    first [ left; reflexivity | right; eexists; reflexivity ].
Qed.

Lemma run_message_not_broadcast (message : Message) (st : Ant) :
  _id message <> ID.BROADCAST_DATA ->
  run_message message st =
  match run_callbacks message st with
  | (Ok _, st1) => (Ok tt, set_last_data (_data message) st1)
  | (Raise e, st1) => (Raise e, st1)
  end.
Proof.
  intros Hid. rewrite run_message_unfold, run_dispatch_unfold.
  replace (_id message =? ID.BROADCAST_DATA) with false
    by (symmetry; apply Z.eqb_neq; exact Hid).
  cbn [andb negb].
  destruct (run_callbacks message st) as [[u|e] st1]; [|reflexivity].
  rewrite run_send_queue_not_broadcast by exact Hid. reflexivity.
Qed.

(** X8: a startup or serial-error notification, and a version, capabilities
    or serial-number response, goes to the response callback with no channel,
    its own id and its whole payload. *)
Theorem channelless_response_dispatch (message : Message) (st : Ant) :
  mem (_id message)
      [ID.STARTUP_MESSAGE; ID.SERIAL_ERROR_MESSAGE; ID.RESPONSE_VERSION;
       ID.RESPONSE_CAPABILITIES; ID.RESPONSE_SERIAL_NUMBER] = true ->
  run_message message st =
  (Ok tt,
   set_last_data (_data message)
     (set_delivered
        (delivered st ++ [Response None (_id message) (_data message)]) st)).
Proof.
  intros Hid. destruct message as [s l i d k]. cbn [_id _data] in *.
  assert (Hnb : i <> ID.BROADCAST_DATA).
  { intros ->. discriminate Hid. }
  rewrite run_message_not_broadcast by exact Hnb.
  unfold mem in Hid. cbn [existsb] in Hid.
  rewrite !orb_true_iff, !Z.eqb_eq in Hid.
  destruct Hid as [->|[->|[->|[->|[->|Hf]]]]];
    try discriminate Hf; reflexivity.
Qed.

Lemma channelless_response_dispatch_witness :
  run_message (frame ID.STARTUP_MESSAGE [0x20]) (Ant_init []) =
  (Ok tt,
   set_last_data [0x20]
     (set_delivered
        (delivered (Ant_init []) ++ [Response None ID.STARTUP_MESSAGE [0x20]])
        (Ant_init []))).
Proof.
  apply (channelless_response_dispatch (frame ID.STARTUP_MESSAGE [0x20])
           (Ant_init [])).
  reflexivity.
Defined.

(** X9: a channel-status or channel-id response goes to the response
    callback with the first payload byte as channel, its own id, and the
    rest of the payload. *)
Theorem channel_response_dispatch (message : Message) (c : Z) (rest : list Z)
  (st : Ant) :
  mem (_id message) [ID.RESPONSE_CHANNEL_STATUS; ID.RESPONSE_CHANNEL_ID] = true ->
  _data message = c :: rest ->
  run_message message st =
  (Ok tt,
   set_last_data (c :: rest)
     (set_delivered
        (delivered st ++ [Response (Some c) (_id message) rest]) st)).
Proof.
  intros Hid Hd. destruct message as [s l i d k]. cbn [_id _data] in *. subst d.
  assert (Hnb : i <> ID.BROADCAST_DATA).
  { intros ->. discriminate Hid. }
  rewrite run_message_not_broadcast by exact Hnb.
  unfold mem in Hid. cbn [existsb] in Hid.
  rewrite !orb_true_iff, !Z.eqb_eq in Hid.
  destruct Hid as [->|[->|Hf]]; try discriminate Hf; reflexivity.
Qed.

Lemma channel_response_dispatch_witness :
  run_message (frame ID.RESPONSE_CHANNEL_STATUS [1; 2]) (Ant_init []) =
  (Ok tt,
   set_last_data [1; 2]
     (set_delivered
        (delivered (Ant_init []) ++
         [Response (Some 1) ID.RESPONSE_CHANNEL_STATUS [2]]) (Ant_init []))).
Proof.
  apply (channel_response_dispatch (frame ID.RESPONSE_CHANNEL_STATUS [1; 2])
           1 [2] (Ant_init [])); reflexivity.
Defined.

(** X10: an acknowledged-data frame is always delivered, as the channel
    event [(payload[0], acknowledged, payload[1:])]: the test for resent data
    looks at broadcasts only, so a payload equal to the last one goes through
    as well. *)
Theorem acknowledge_always_delivered (message : Message) (c : Z)
  (rest : list Z) (st : Ant) :
  _id message = ID.ACKNOWLEDGE_DATA ->
  _data message = c :: rest ->
  run_message message st =
  (Ok tt,
   set_last_data (c :: rest)
     (set_delivered
        (delivered st ++ [ChannelEvent c Code.EVENT_RX_ACKNOWLEDGED rest]) st)).
Proof.
  intros Hid Hd. destruct message as [s l i d k]. cbn [_id _data] in *.
  subst i d.
  rewrite run_message_not_broadcast by discriminate. reflexivity.
Qed.

Lemma acknowledge_always_delivered_witness :
  run_message (frame ID.ACKNOWLEDGE_DATA [0; 9])
    (set_last_data [0; 9] (Ant_init [])) =
  (Ok tt,
   set_last_data [0; 9]
     (set_delivered
        (delivered (set_last_data [0; 9] (Ant_init [])) ++
         [ChannelEvent 0 Code.EVENT_RX_ACKNOWLEDGED [9]])
        (set_last_data [0; 9] (Ant_init [])))).
Proof.
  apply (acknowledge_always_delivered (frame ID.ACKNOWLEDGE_DATA [0; 9]) 0 [9]
           (set_last_data [0; 9] (Ant_init []))); reflexivity.
Defined.

(** X11: a message whose id is none of the twelve the loop knows makes no
    callback and sends nothing; the iteration ends normally, and the only
    trace is that its payload is now the last payload. *)
Theorem unknown_message_ignored (message : Message) (st : Ant) :
  mem (_id message)
      [ID.STARTUP_MESSAGE; ID.SERIAL_ERROR_MESSAGE; ID.RESPONSE_VERSION;
       ID.RESPONSE_CAPABILITIES; ID.RESPONSE_SERIAL_NUMBER;
       ID.RESPONSE_CHANNEL_STATUS; ID.RESPONSE_CHANNEL_ID; ID.RESPONSE_CHANNEL;
       ID.BROADCAST_DATA; ID.ACKNOWLEDGE_DATA; ID.BURST_TRANSFER_DATA] = false ->
  run_message message st = (Ok tt, set_last_data (_data message) st).
Proof.
  intros Hid. destruct message as [s l i d k]. cbn [_id _data] in *.
  unfold mem in Hid. cbn [existsb] in Hid.
  repeat (apply orb_false_iff in Hid; destruct Hid as [? Hid]).
  assert (Hnb : i <> ID.BROADCAST_DATA).
  { apply Z.eqb_neq. assumption. }
  rewrite run_message_not_broadcast by exact Hnb.
  unfold run_callbacks, mem, bind, ret. cbn [_id _data existsb].
  repeat match goal with
         | H : (i =? ?k) = false |- _ => rewrite H; clear H
         end.
  reflexivity.
Qed.

Lemma unknown_message_ignored_witness :
  run_message (frame 0x99 [1; 2; 3]) (Ant_init [])
  = (Ok tt, set_last_data [1; 2; 3] (Ant_init [])).
Proof.
  apply (unknown_message_ignored (frame 0x99 [1; 2; 3]) (Ant_init [])).
  reflexivity.
Defined.

(** ** When the queue is sent from *)

Lemma keeps_run_dispatch {F : Type} (f : Ant -> F) (message : Message) :
  (forall d st, f (set_delivered d st) = f st) ->
  (forall b st, f (set_burst_data b st) = f st) ->
  keeps f (run_dispatch message).
Proof.
  intros Hd Hb st. rewrite run_dispatch_unfold.
  destruct (negb _); [|reflexivity].
  apply keeps_run_callbacks; assumption.
Qed.

(** X12: only a broadcast opens a timeslot: whatever else comes in, and
    however its handling ends, nothing is written to the endpoint and the
    queue stays as it is. *)
Theorem only_broadcast_sends (message : Message) (st : Ant) :
  _id message <> ID.BROADCAST_DATA ->
  usb_out (snd (run_message message st)) = usb_out st /\
  _message_queue (snd (run_message message st)) = _message_queue st.
Proof.
  intros Hid. rewrite run_message_unfold.
  pose proof (keeps_run_dispatch usb_out message
                (fun _ _ => eq_refl) (fun _ _ => eq_refl) st) as Ko.
  pose proof (keeps_run_dispatch _message_queue message
                (fun _ _ => eq_refl) (fun _ _ => eq_refl) st) as Kq.
  destruct (run_dispatch message st) as [[u|e] st1]; cbn [snd] in *;
    [|split; assumption].
  rewrite run_send_queue_not_broadcast by exact Hid.
  split; assumption.
Qed.

Lemma only_broadcast_sends_witness :
  usb_out
    (snd (run_message (frame ID.ACKNOWLEDGE_DATA [0; 1])
            (ant_with_queue [frame ID.ACKNOWLEDGE_DATA [0; 9]])))
  = usb_out (ant_with_queue [frame ID.ACKNOWLEDGE_DATA [0; 9]]) /\
  _message_queue
    (snd (run_message (frame ID.ACKNOWLEDGE_DATA [0; 1])
            (ant_with_queue [frame ID.ACKNOWLEDGE_DATA [0; 9]])))
  = _message_queue (ant_with_queue [frame ID.ACKNOWLEDGE_DATA [0; 9]]).
Proof.
  apply (only_broadcast_sends (frame ID.ACKNOWLEDGE_DATA [0; 1])
           (ant_with_queue [frame ID.ACKNOWLEDGE_DATA [0; 9]])).
  discriminate.
Defined.

(** X13: a broadcast that finds the queue lock taken skips the timeslot:
    the callback is made as usual, nothing is popped or written, and the
    iteration ends normally. *)
Theorem busy_lock_skips_timeslot (message : Message) (c : Z) (rest : list Z)
  (st : Ant) :
  _id message = ID.BROADCAST_DATA ->
  _data message = c :: rest ->
  queue_busy st = true ->
  run_message message st =
  (Ok tt,
   set_last_data (c :: rest)
     (if array_eqb (c :: rest) (_last_data st) then st
      else set_delivered
             (delivered st ++ [ChannelEvent c Code.EVENT_RX_BROADCAST rest]) st)).
Proof.
  intros Hid Hd Hbusy.
  rewrite run_message_unfold, run_dispatch_unfold, Hid, Hd, Z.eqb_refl.
  cbn [andb].
  destruct (array_eqb (c :: rest) (_last_data st)); cbn [negb].
  - rewrite run_send_queue_busy by exact Hbusy. reflexivity.
  - rewrite (run_callbacks_broadcast message c rest st Hid Hd).
    rewrite run_send_queue_busy by exact Hbusy. reflexivity.
Qed.

Lemma busy_lock_skips_timeslot_witness :
  run_message (frame ID.BROADCAST_DATA [0; 7])
    (mkAnt [] [] [] [frame ID.ACKNOWLEDGE_DATA [0; 9]] true [] [] true true [])
  = (Ok tt,
     set_last_data [0; 7]
       (set_delivered [ChannelEvent 0 Code.EVENT_RX_BROADCAST [7]]
          (mkAnt [] [] [] [frame ID.ACKNOWLEDGE_DATA [0; 9]] true [] [] true
                 true []))).
Proof.
  apply (busy_lock_skips_timeslot (frame ID.BROADCAST_DATA [0; 7]) 0 [7]
           (mkAnt [] [] [] [frame ID.ACKNOWLEDGE_DATA [0; 9]] true [] [] true
                  true [])); reflexivity.
Defined.

Lemma run_send_queue_loop (message : Message) (st : Ant) :
  _id message = ID.BROADCAST_DATA ->
  queue_busy st = false ->
  run_send_queue message st = send_queue_loop (_message_queue st) st.
Proof.
  intros Hid Hbusy. unfold run_send_queue.
  rewrite Hid, Z.eqb_refl. unfold bind, gets.
  rewrite Hbusy. reflexivity.
Qed.

(** X14: a frame at the front of the queue that is not a burst packet is the
    only one its timeslot sends: whatever is queued behind it waits for the
    next broadcast. *)
Theorem one_message_per_timeslot (message m : Message) (q : list Message)
  (st : Ant) :
  _id message = ID.BROADCAST_DATA ->
  queue_busy st = false ->
  usb_out_up st = true ->
  _message_queue st = m :: q ->
  sendable m = true ->
  _id m <> ID.BURST_TRANSFER_DATA ->
  run_send_queue message st =
  (Ok tt, set_usb_out (usb_out st ++ [wire m]) (set_message_queue q st)).
Proof.
  intros Hid Hbusy Hup Hq Hs Hm.
  assert (K : keeps_draining m = false).
  { apply keeps_draining_false_iff. auto. }
  rewrite run_send_queue_loop by assumption.
  rewrite (send_queue_loop_spec (_message_queue st) st Hup);
    rewrite ?Hq, ?drain_split_cons, ?K; cbn [fst snd map forallb].
  - reflexivity.
  - rewrite Hs. reflexivity.
  - reflexivity.
Qed.

Lemma one_message_per_timeslot_witness :
  run_send_queue (frame ID.BROADCAST_DATA [0; 7])
    (ant_with_queue [frame ID.ACKNOWLEDGE_DATA [0; 9];
                     frame ID.ACKNOWLEDGE_DATA [0; 8]])
  = (Ok tt,
     set_usb_out
       (usb_out (ant_with_queue [frame ID.ACKNOWLEDGE_DATA [0; 9];
                                 frame ID.ACKNOWLEDGE_DATA [0; 8]])
        ++ [wire (frame ID.ACKNOWLEDGE_DATA [0; 9])])
       (set_message_queue [frame ID.ACKNOWLEDGE_DATA [0; 8]]
          (ant_with_queue [frame ID.ACKNOWLEDGE_DATA [0; 9];
                           frame ID.ACKNOWLEDGE_DATA [0; 8]]))).
Proof.
  apply (one_message_per_timeslot (frame ID.BROADCAST_DATA [0; 7])
           (frame ID.ACKNOWLEDGE_DATA [0; 9]) [frame ID.ACKNOWLEDGE_DATA [0; 8]]
           (ant_with_queue [frame ID.ACKNOWLEDGE_DATA [0; 9];
                            frame ID.ACKNOWLEDGE_DATA [0; 8]]));
    try reflexivity.
  discriminate.
Defined.

(** ** Burst transfers, sent and received *)

Lemma lor_below (n a b : Z) :
  0 <= n -> 0 <= a < 2 ^ n -> 0 <= b < 2 ^ n -> 0 <= Z.lor a b < 2 ^ n.
Proof.
  intros Hn Ha Hb.
  assert (H0 : 0 <= Z.lor a b) by (apply Z.lor_nonneg; lia).
  split; [exact H0|].
  assert (Hp : 0 < 2 ^ n) by (apply Z.pow_pos_nonneg; lia).
  destruct (Z.eq_dec (Z.lor a b) 0) as [E|E]; [rewrite E; exact Hp|].
  destruct (Z.eq_dec n 0) as [->|Hn0].
  { change (2 ^ 0) with 1 in *. replace a with 0 in * by lia.
    replace b with 0 in * by lia. simpl in E. contradiction. }
  apply Z.log2_lt_pow2; [lia|].
  rewrite Z.log2_lor by lia.
  assert (La : Z.log2 a < n).
  { destruct (Z.eq_dec a 0) as [->|]; [simpl|apply Z.log2_lt_pow2]; lia. }
  assert (Lb : Z.log2 b < n).
  { destruct (Z.eq_dec b 0) as [->|]; [simpl|apply Z.log2_lt_pow2]; lia. }
  lia.
Qed.

Lemma land_128_below (a : Z) : 0 <= a < 128 -> Z.land a 0x80 = 0.
Proof.
  intros Ha.
  assert (E : a = Z.land a (Z.ones 7)).
  { rewrite Z.land_ones by lia. symmetry. apply Z.mod_small.
    change (2 ^ 7) with 128. lia. }
  rewrite E, <- Z.land_assoc. change (Z.land (Z.ones 7) 128) with 0.
  apply Z.land_0_r.
Qed.

(** The byte that [send_burst_transfer] puts first, read as the receiving
    side and the queue loop read it. *)
Lemma burst_channelSeq_read (channel : Z) (i n : nat) :
  0 <= channel <= 31 ->
  let b := burst_channelSeq channel i n in
  is_byte b = true /\
  Z.land b 0x1F = channel /\
  (Z.land (Z.shiftr b 5) LAST_SEQUENCE =? 0) = negb (Nat.eqb (S i) n) /\
  (Z.land b 0x80 =? 0) = negb (Nat.eqb (S i) n).
Proof.
  intros Hc. cbv zeta.
  assert (Hs : 0 <= Z.of_nat i mod 4 < 4) by (apply Z.mod_pos_bound; lia).
  assert (B : burst_channelSeq channel i n =
              Z.lor channel
                (Z.shiftl (if Nat.eqb (S i) n
                           then Z.lor (Z.of_nat i mod 4) 4
                           else Z.of_nat i mod 4) 5)).
  { unfold burst_channelSeq. destruct (Nat.eqb (S i) n); [|reflexivity].
    rewrite Z.shiftl_lor, Z.lor_assoc. reflexivity. }
  rewrite B. clear B. unfold LAST_SEQUENCE.
  set (s := Z.of_nat i mod 4) in *.
  assert (Cs : s = 0 \/ s = 1 \/ s = 2 \/ s = 3) by lia.
  clearbody s.
  assert (G : forall s', 0 <= s' < 8 ->
              is_byte (Z.lor channel (Z.shiftl s' 5)) = true /\
              Z.land (Z.lor channel (Z.shiftl s' 5)) 31 = channel /\
              Z.land (Z.shiftr (Z.lor channel (Z.shiftl s' 5)) 5) 4
              = Z.land s' 4 /\
              Z.land (Z.lor channel (Z.shiftl s' 5)) 128
              = Z.land (Z.shiftl s' 5) 128).
  { intros s' Hs'.
    destruct (channelSeq_split channel s' Hc ltac:(lia)) as [S1 S2].
    split; [|split; [exact S2|split]].
    - apply is_byte_iff.
      assert (0 <= Z.lor channel (Z.shiftl s' 5) < 2 ^ 8); [|simpl in *; lia].
      apply lor_below; [lia|simpl; lia|].
      rewrite Z.shiftl_mul_pow2 by lia. simpl. lia.
    - rewrite S1. reflexivity.
    - rewrite Z.land_lor_distr_l, land_128_below by lia. apply Z.lor_0_l. }
  destruct (Nat.eqb (S i) n); cbn [negb];
    destruct Cs as [->|[->|[->| ->]]];
    match goal with
    | |- context [Z.shiftl ?s' 5] =>
        destruct (G s' ltac:(simpl; lia)) as (G1 & G2 & G3 & G4);
        rewrite G1, G2, G3, G4
    end; repeat split; reflexivity.
Qed.

Lemma keeps_draining_burst_frame (channel : Z) (i n : nat) (chunk : list Z) :
  0 <= channel <= 31 ->
  keeps_draining
    (frame ID.BURST_TRANSFER_DATA (burst_channelSeq channel i n :: chunk))
  = negb (Nat.eqb (S i) n).
Proof.
  intros Hc. unfold keeps_draining, frame. cbn [_id _data hd].
  rewrite Z.eqb_refl. cbn [andb].
  apply (burst_channelSeq_read channel i n Hc).
Qed.

Lemma drain_split_burst_frames (channel : Z) (n : nat) (rest : list (list Z)) :
  0 <= channel <= 31 ->
  forall k, (k + length rest = n)%nat -> rest <> [] ->
  drain_split (burst_frames channel n k rest)
  = (burst_frames channel n k rest, []).
Proof.
  intros Hc. induction rest as [|c rest IH]; intros k Hk Hne; [contradiction|].
  cbn [burst_frames]. rewrite drain_split_cons, keeps_draining_burst_frame by exact Hc.
  destruct rest as [|c' rest].
  - cbn [length] in Hk.
    replace (Nat.eqb (S k) n) with true
      by (symmetry; apply Nat.eqb_eq; lia).
    reflexivity.
  - cbn [length] in Hk.
    replace (Nat.eqb (S k) n) with false
      by (symmetry; apply Nat.eqb_neq; lia).
    cbn [negb]. rewrite IH; [reflexivity|cbn [length]; lia|discriminate].
Qed.

Lemma burst_frames_sendable (channel : Z) (n : nat) (rest : list (list Z)) :
  0 <= channel <= 31 ->
  forallb (fun c => forallb is_byte c && (Z.of_nat (length c) <=? 254)) rest
  = true ->
  forall k, forallb sendable (burst_frames channel n k rest) = true.
Proof.
  intros Hc. induction rest as [|c rest IH]; intros Hok k; [reflexivity|].
  cbn [forallb burst_frames] in *.
  apply andb_true_iff in Hok as [Hck Hrest].
  apply andb_true_iff in Hck as [Hb Hl]. apply Z.leb_le in Hl.
  rewrite IH by exact Hrest. rewrite andb_true_r.
  apply frame_sendable; [reflexivity| |cbn [length]; lia].
  cbn [forallb]. rewrite Hb.
  rewrite (proj1 (burst_channelSeq_read channel k n Hc)). reflexivity.
Qed.

Lemma send_burst_transfer_queue (channel : Z) (chunks : list (list Z))
  (st : Ant) :
  send_burst_transfer channel chunks st =
  (Ok tt,
   set_message_queue
     (_message_queue st ++ burst_frames channel (length chunks) 0 chunks) st).
Proof.
  unfold send_burst_transfer. apply send_burst_transfer_from.
  intros j _. reflexivity.
Qed.

(** X15: a burst queued by [send_burst_transfer] on an empty queue goes out
    whole in the next timeslot: for a 5-bit channel and chunks of at most 254
    bytes, one broadcast writes the frame of every chunk, in order, and
    leaves the queue empty. *)
Theorem burst_sent_in_one_timeslot (channel : Z) (chunks : list (list Z))
  (message : Message) (st : Ant) :
  0 <= channel <= 31 ->
  chunks <> [] ->
  forallb (fun c => forallb is_byte c && (Z.of_nat (length c) <=? 254)) chunks
  = true ->
  _message_queue st = [] ->
  queue_busy st = false ->
  usb_out_up st = true ->
  _id message = ID.BROADCAST_DATA ->
  (send_burst_transfer channel chunks ;; run_send_queue message) st =
  (Ok tt,
   set_usb_out
     (usb_out st ++ map wire (burst_frames channel (length chunks) 0 chunks))
     st).
Proof.
  intros Hc Hne Hok Hq Hbusy Hup Hid.
  unfold bind at 1. rewrite send_burst_transfer_queue.
  rewrite Hq. cbn [app].
  set (frames := burst_frames channel (length chunks) 0 chunks).
  rewrite run_send_queue_loop by (exact Hid || exact Hbusy).
  rewrite send_queue_loop_spec.
  - cbn [_message_queue set_message_queue].
    unfold frames. rewrite drain_split_burst_frames by (exact Hc || exact Hne || reflexivity).
    cbn [fst snd]. destruct st; cbn in *; subst. reflexivity.
  - exact Hup.
  - cbn [_message_queue set_message_queue].
    unfold frames. rewrite drain_split_burst_frames by (exact Hc || exact Hne || reflexivity).
    cbn [fst]. apply burst_frames_sendable; assumption.
  - reflexivity.
Qed.

Lemma burst_sent_in_one_timeslot_witness :
  (send_burst_transfer 3 [[1; 2]; [3; 4]; [5]] ;;
   run_send_queue (frame ID.BROADCAST_DATA [3; 0])) (Ant_init []) =
  (Ok tt,
   set_usb_out
     (usb_out (Ant_init []) ++
      map wire (burst_frames 3 (length [[1; 2]; [3; 4]; [5]]) 0
                  [[1; 2]; [3; 4]; [5]]))
     (Ant_init [])).
Proof.
  apply (burst_sent_in_one_timeslot 3 [[1; 2]; [3; 4]; [5]]
           (frame ID.BROADCAST_DATA [3; 0]) (Ant_init []));
    try reflexivity.
  - lia.
  - discriminate.
Defined.

Example burst_sent_bytes :
  usb_out
    (snd ((send_burst_transfer 3 [[1; 2]; [3; 4]; [5]] ;;
           run_send_queue (frame ID.BROADCAST_DATA [3; 0])) (Ant_init [])))
  = [[0xa4; 3; 0x50; 0x03; 1; 2; 0xf7; 0; 0];
     [0xa4; 3; 0x50; 0x23; 3; 4; 0xd3; 0; 0];
     [0xa4; 2; 0x50; 0xc3; 5; 0x30; 0; 0]].
Proof. reflexivity. Qed.

Lemma on_burst_data_frames (channel : Z) (n : nat) (rest : list (list Z)) :
  0 <= channel <= 31 ->
  forall (k : nat) (st : Ant),
    (k + length rest = n)%nat -> rest <> [] ->
    for_each (burst_frames channel n k rest) _on_burst_data st =
    (Ok tt,
     set_burst_data []
       (set_delivered
          (delivered st ++
           [ChannelEvent channel Code.EVENT_RX_BURST_PACKET
                         (_burst_data st ++ concat rest)]) st)).
Proof.
  intros Hc. induction rest as [|c rest IH]; intros k st Hk Hne;
    [contradiction|].
  cbn [burst_frames for_each]. unfold bind at 1.
  destruct (burst_channelSeq_read channel k n Hc) as (_ & Hch & Hlast & _).
  destruct rest as [|c' rest].
  - cbn [length] in Hk.
    replace (Nat.eqb (S k) n) with true in Hlast
      by (symmetry; apply Nat.eqb_eq; lia).
    cbn [negb] in Hlast. apply Z.eqb_neq in Hlast.
    rewrite (on_burst_data_last
               (frame ID.BURST_TRANSFER_DATA (burst_channelSeq channel k n :: c))
               (burst_channelSeq channel k n) c st eq_refl Hlast).
    rewrite Hch. cbn [burst_frames for_each concat]. rewrite app_nil_r.
    reflexivity.
  - cbn [length] in Hk.
    replace (Nat.eqb (S k) n) with false in Hlast
      by (symmetry; apply Nat.eqb_neq; lia).
    cbn [negb] in Hlast. apply Z.eqb_eq in Hlast.
    rewrite (on_burst_data_more
               (frame ID.BURST_TRANSFER_DATA (burst_channelSeq channel k n :: c))
               (burst_channelSeq channel k n) c st eq_refl Hlast).
    rewrite IH; [|cbn [length]; lia|discriminate].
    destruct st; cbn. rewrite <- app_assoc. reflexivity.
Qed.

(** X16: what [send_burst_transfer] queues is what [_on_burst_data] puts
    together again: fed in order to a reassembler with an empty accumulator,
    the payloads of the queued frames give no event until the last one and
    then one burst event, for the same channel, with the chunks
    concatenated; the accumulator is empty again. *)
Theorem burst_send_receive_round_trip (channel : Z) (chunks : list (list Z))
  (st : Ant) :
  0 <= channel <= 31 ->
  chunks <> [] ->
  _burst_data st = [] ->
  for_each
    (_message_queue (snd (send_burst_transfer channel chunks (Ant_init []))))
    _on_burst_data st =
  (Ok tt,
   set_delivered
     (delivered st ++
      [ChannelEvent channel Code.EVENT_RX_BURST_PACKET (concat chunks)]) st).
Proof.
  intros Hc Hne Hacc.
  rewrite send_burst_transfer_queue.
  cbn [snd _message_queue set_message_queue Ant_init app].
  rewrite (on_burst_data_frames channel (length chunks) chunks Hc 0 st)
    by (reflexivity || exact Hne).
  rewrite Hacc. destruct st; cbn in *; subst. reflexivity.
Qed.

Lemma burst_send_receive_round_trip_witness :
  for_each
    (_message_queue
       (snd (send_burst_transfer 3 [[1; 2]; [3; 4]; [5]; [6]; [7; 8]]
               (Ant_init []))))
    _on_burst_data (Ant_init []) =
  (Ok tt,
   set_delivered
     (delivered (Ant_init []) ++
      [ChannelEvent 3 Code.EVENT_RX_BURST_PACKET
                    (concat [[1; 2]; [3; 4]; [5]; [6]; [7; 8]])])
     (Ant_init [])).
Proof.
  apply (burst_send_receive_round_trip 3 [[1; 2]; [3; 4]; [5]; [6]; [7; 8]]
           (Ant_init [])).
  - lia.
  - discriminate.
  - reflexivity.
Defined.

(** ** Failures while sending from the queue *)

Lemma run_dispatch_broadcast (message : Message) (c : Z) (rest : list Z)
  (st : Ant) :
  _id message = ID.BROADCAST_DATA ->
  _data message = c :: rest ->
  run_dispatch message st = (Ok tt, after_broadcast c rest st).
Proof.
  intros Hid Hd. rewrite run_dispatch_unfold, Hid, Hd, Z.eqb_refl.
  unfold after_broadcast. cbn [andb].
  destruct (array_eqb (c :: rest) (_last_data st)); cbn [negb];
    [reflexivity|].
  apply run_callbacks_broadcast; assumption.
Qed.

(** An iteration that finds a broadcast at the front of the buffer and the
    lock free. *)
Lemma run_body_broadcast (c : Z) (rest b' : list Z) (st : Ant) :
  _buffer st = frame_bytes ID.BROADCAST_DATA (c :: rest) ++ b' ->
  queue_busy st = false ->
  run_body st =
  match send_queue_loop (_message_queue st)
          (after_broadcast c rest (set_buffer b' st)) with
  | (Ok _, st2) => (Ok tt, set_last_data (c :: rest) st2)
  | (Raise e, st2) => (Raise e, st2)
  end.
Proof.
  intros Hb Hbusy. unfold run_body, bind at 1, read_message.
  rewrite (read_message_frame_ready _ st _ c rest b' Hb).
  rewrite run_message_unfold.
  rewrite (run_dispatch_broadcast (frame ID.BROADCAST_DATA (c :: rest)) c rest
             (set_buffer b' st) eq_refl eq_refl).
  rewrite run_send_queue_loop.
  - replace (_message_queue (after_broadcast c rest (set_buffer b' st)))
      with (_message_queue st); [reflexivity|].
    unfold after_broadcast. destruct (array_eqb _ _); reflexivity.
  - reflexivity.
  - unfold after_broadcast. destruct (array_eqb _ _); exact Hbusy.
Qed.

Lemma send_queue_loop_unsendable (m : Message) (q : list Message) (e : Exn)
  (st : Ant) :
  get m = Raise e ->
  send_queue_loop (m :: q) st = (Raise e, set_message_queue q st).
Proof.
  intros H. cbn [send_queue_loop].
  unfold bind, modify, write_message, lift. rewrite H. reflexivity.
Qed.

Lemma send_queue_loop_link_down (m : Message) (q : list Message)
  (bytes : list Z) (st : Ant) :
  get m = Ok bytes -> usb_out_up st = false ->
  send_queue_loop (m :: q) st = (Raise USBError, set_message_queue q st).
Proof.
  intros H Hup. cbn [send_queue_loop].
  unfold bind, modify, write_message, lift. rewrite H.
  unfold usb_write. destruct st; cbn in *. rewrite Hup. reflexivity.
Qed.

(** X17: a payload too long for the length byte is not refused when it is
    queued: [send_acknowledged_data] with 255 data bytes or more returns
    normally.  The frame fails when its timeslot comes, in the reader: it is
    popped, [OverflowError] is raised where only [usb.USBError] is caught,
    and [run] ends, with the last payload not updated and nothing written. *)
Theorem oversize_frame_ends_run :
  (forall (channel : Z) (data : list Z) (st : Ant),
      255 <= Z.of_nat (length data) ->
      send_acknowledged_data channel data st =
      (Ok tt,
       set_message_queue
         (_message_queue st ++ [frame ID.ACKNOWLEDGE_DATA (0x00 :: data)]) st)
      /\ get (frame ID.ACKNOWLEDGE_DATA (0x00 :: data)) = Raise OverflowError) /\
  (forall (m : Message) (q : list Message) (c : Z) (rest b' : list Z)
          (fuel : nat) (st : Ant),
      _running st = true ->
      _buffer st = frame_bytes ID.BROADCAST_DATA (c :: rest) ++ b' ->
      _message_queue st = m :: q ->
      queue_busy st = false ->
      get m = Raise OverflowError ->
      run (S fuel) st =
      (Raise OverflowError,
       set_message_queue q (after_broadcast c rest (set_buffer b' st)))).
Proof.
  split.
  - intros channel data st Hlen. split.
    + unfold send_acknowledged_data, bind, lift. cbn [app].
      rewrite Message_init_nonempty. reflexivity.
    + unfold get, array_B, frame. cbn [_sync _length _id _data _checksum app forallb].
      replace (is_byte (Z.of_nat (length (0 :: data)))) with false;
        [reflexivity|].
      symmetry. apply not_true_is_false. rewrite is_byte_iff.
      cbn [length]. lia.
  - intros m q c rest b' fuel st Hrun Hb Hq Hbusy Hget.
    rewrite run_step by exact Hrun.
    rewrite (run_iteration_raises st
               (set_message_queue q (after_broadcast c rest (set_buffer b' st)))
               OverflowError); [reflexivity| |discriminate].
    rewrite (run_body_broadcast c rest b' st Hb Hbusy), Hq.
    rewrite (send_queue_loop_unsendable m q OverflowError _ Hget). reflexivity.
Qed.

Lemma oversize_frame_ends_run_witness :
  run 2
    (mkAnt [0xa4; 2; 0x4e; 0; 7; 0xef; 0xa4] [] []
           [frame ID.ACKNOWLEDGE_DATA [0; 300]; frame ID.ACKNOWLEDGE_DATA [0; 1]]
           true [] [] true false [])
  = (Raise OverflowError,
     set_message_queue [frame ID.ACKNOWLEDGE_DATA [0; 1]]
       (after_broadcast 0 [7]
          (set_buffer [0xa4]
             (mkAnt [0xa4; 2; 0x4e; 0; 7; 0xef; 0xa4] [] []
                    [frame ID.ACKNOWLEDGE_DATA [0; 300];
                     frame ID.ACKNOWLEDGE_DATA [0; 1]]
                    true [] [] true false [])))).
Proof.
  apply (proj2 oversize_frame_ends_run
           (frame ID.ACKNOWLEDGE_DATA [0; 300])
           [frame ID.ACKNOWLEDGE_DATA [0; 1]] 0 [7] [0xa4] 1%nat
           (mkAnt [0xa4; 2; 0x4e; 0; 7; 0xef; 0xa4] [] []
                  [frame ID.ACKNOWLEDGE_DATA [0; 300];
                   frame ID.ACKNOWLEDGE_DATA [0; 1]]
                  true [] [] true false [])); reflexivity.
Defined.

(** X18: when the endpoint refuses the write of a queued frame, the
    iteration is abandoned and the loop goes on: the exception is caught,
    but the frame has been popped and is not sent later, and the last
    payload keeps its old value, so the same broadcast payload coming again
    is not taken for resent data. *)
Theorem write_failure_drops_frame (m : Message) (q : list Message)
  (bytes : list Z) (c : Z) (rest b' : list Z) (st : Ant) :
  _buffer st = frame_bytes ID.BROADCAST_DATA (c :: rest) ++ b' ->
  _message_queue st = m :: q ->
  queue_busy st = false ->
  usb_out_up st = false ->
  get m = Ok bytes ->
  run_iteration st =
  (Ok tt, set_message_queue q (after_broadcast c rest (set_buffer b' st))) /\
  _last_data (snd (run_iteration st)) = _last_data st /\
  usb_out (snd (run_iteration st)) = usb_out st.
Proof.
  intros Hb Hq Hbusy Hup Hget.
  assert (E : run_iteration st =
              (Ok tt,
               set_message_queue q (after_broadcast c rest (set_buffer b' st)))).
  { unfold run_iteration.
    rewrite (run_body_broadcast c rest b' st Hb Hbusy), Hq.
    rewrite (send_queue_loop_link_down m q bytes _ Hget); [reflexivity|].
    unfold after_broadcast. destruct (array_eqb _ _); exact Hup. }
  rewrite E. split; [reflexivity|].
  unfold after_broadcast. cbn [snd].
  destruct (array_eqb _ _); split; reflexivity.
Qed.

Lemma write_failure_drops_frame_witness :
  run_iteration
    (mkAnt [0xa4; 2; 0x4e; 0; 7; 0xef; 0xa4] [] []
           [frame ID.ACKNOWLEDGE_DATA [0; 9]] true [] [] false false [])
  = (Ok tt,
     set_message_queue []
       (after_broadcast 0 [7]
          (set_buffer [0xa4]
             (mkAnt [0xa4; 2; 0x4e; 0; 7; 0xef; 0xa4] [] []
                    [frame ID.ACKNOWLEDGE_DATA [0; 9]] true [] [] false false
                    []))))
  /\ _last_data
       (snd (run_iteration
               (mkAnt [0xa4; 2; 0x4e; 0; 7; 0xef; 0xa4] [] []
                      [frame ID.ACKNOWLEDGE_DATA [0; 9]] true [] [] false false
                      [])))
     = []
  /\ usb_out
       (snd (run_iteration
               (mkAnt [0xa4; 2; 0x4e; 0; 7; 0xef; 0xa4] [] []
                      [frame ID.ACKNOWLEDGE_DATA [0; 9]] true [] [] false false
                      [])))
     = [].
Proof.
  apply (write_failure_drops_frame (frame ID.ACKNOWLEDGE_DATA [0; 9]) []
           [0xa4; 2; 0x4f; 0; 9; 0xe0] 0 [7] [0xa4]
           (mkAnt [0xa4; 2; 0x4e; 0; 7; 0xef; 0xa4] [] []
                  [frame ID.ACKNOWLEDGE_DATA [0; 9]] true [] [] false false []));
    reflexivity.
Defined.

(** ** Configuration and control commands *)

Lemma send_now_frame (mId x : Z) (xs : list Z) (st : Ant) :
  is_byte mId = true -> forallb is_byte (x :: xs) = true ->
  Z.of_nat (length (x :: xs)) <= 255 ->
  usb_out_up st = true ->
  sends_now (message <- lift (Message_init mId (x :: xs)) ;;
             write_message message) mId (x :: xs) st.
Proof.
  intros Hid Hp Hlen Hup. unfold sends_now, bind at 1, lift.
  rewrite Message_init_nonempty.
  rewrite write_message_sendable;
    [reflexivity|apply frame_sendable; assumption|exact Hup].
Qed.

Lemma send_now_overflow (mId x : Z) (xs : list Z) (st : Ant) :
  forallb is_byte (mId :: Z.of_nat (length (x :: xs)) :: x :: xs) = false ->
  (message <- lift (Message_init mId (x :: xs)) ;; write_message message) st
  = (Raise OverflowError, st).
Proof.
  intros H. unfold bind at 1, lift. rewrite Message_init_nonempty.
  unfold write_message, bind, lift, get, array_B, frame.
  cbn [_sync _length _id _data _checksum app].
  replace (forallb is_byte _) with false; [reflexivity|].
  symmetry. cbn [forallb] in *.
  rewrite forallb_is_byte_app.
  apply andb_false_iff in H as [H|H]; [rewrite H; rewrite ?andb_false_r; reflexivity|].
  apply andb_false_iff in H as [H|H]; [rewrite H; reflexivity|].
  apply andb_false_iff in H as [H|H]; rewrite H; rewrite ?andb_false_r;
    reflexivity.
Qed.

(** X19: each configuration or control command writes one frame at once,
    with its own id and its arguments, channel first, as payload, followed by
    two zero bytes; the queue is not involved.  [unassign_channel] sends
    nothing at all. *)
Theorem commands_send_one_frame (a b c d e : Z) (l : list Z) (st : Ant) :
  usb_out_up st = true ->
  forallb is_byte [a; b; c; d; e] = true ->
  forallb is_byte l = true ->
  Z.of_nat (length l) <= 254 ->
  sends_now (assign_channel a b c) 0x42 [a; b; c] st /\
  sends_now (open_channel a) 0x4B [a] st /\
  sends_now (set_channel_id a [b; c] d e) 0x51 [a; b; c; d; e] st /\
  sends_now (set_channel_period a l) 0x43 (a :: l) st /\
  sends_now (set_channel_search_timeout a b) 0x44 [a; b] st /\
  sends_now (set_channel_rf_freq a b) 0x45 [a; b] st /\
  sends_now (set_network_key a l) 0x46 (a :: l) st /\
  sends_now (set_search_waveform a l) 0x49 (a :: l) st /\
  sends_now reset_system 0x4A [0x00] st /\
  unassign_channel a st = (Ok tt, st).
Proof.
  intros Hup Hb Hl Hlen.
  cbn [forallb] in Hb.
  repeat (apply andb_true_iff in Hb; destruct Hb as [? Hb]).
  assert (Hal : forallb is_byte (a :: l) = true).
  { cbn [forallb]. apply andb_true_iff. auto. }
  assert (T : forall mId x xs,
             is_byte mId = true -> forallb is_byte (x :: xs) = true ->
             Z.of_nat (length (x :: xs)) <= 255 ->
             sends_now (message <- lift (Message_init mId (x :: xs)) ;;
                        write_message message) mId (x :: xs) st).
  { intros mId x xs Hi Hp Hn. apply send_now_frame; assumption. }
  assert (L : Z.of_nat (length (a :: l)) <= 255) by (cbn [length]; lia).
  split.
  { apply T; [reflexivity| |simpl; lia].
    cbn [forallb]. rewrite H, H0, H1. reflexivity. }
  split.
  { apply T; [reflexivity| |simpl; lia].
    cbn [forallb]. rewrite H. reflexivity. }
  split.
  { unfold set_channel_id, bind at 1, lift, getitem. cbn [nth_error].
    unfold bind at 1.
    apply T; [reflexivity| |simpl; lia].
    cbn [forallb]. rewrite H, H0, H1, H2, H3. reflexivity. }
  split; [apply T; [reflexivity|exact Hal|exact L]|].
  split.
  { apply T; [reflexivity| |simpl; lia].
    cbn [forallb]. rewrite H, H0. reflexivity. }
  split.
  { apply T; [reflexivity| |simpl; lia].
    cbn [forallb]. rewrite H, H0. reflexivity. }
  split; [apply T; [reflexivity|exact Hal|exact L]|].
  split; [apply T; [reflexivity|exact Hal|exact L]|].
  split; [|reflexivity].
  apply T; [reflexivity|reflexivity|simpl; lia].
Qed.

Lemma commands_send_one_frame_witness :
  sends_now (set_network_key 0 [0xa8; 0xa4; 0x23; 0xb9; 0xf5; 0x5e; 0x63; 0xc1])
    0x46 (0 :: [0xa8; 0xa4; 0x23; 0xb9; 0xf5; 0x5e; 0x63; 0xc1]) (Ant_init []).
Proof.
  apply (commands_send_one_frame 0 0 0 0 0
           [0xa8; 0xa4; 0x23; 0xb9; 0xf5; 0x5e; 0x63; 0xc1] (Ant_init []));
    try reflexivity.
  simpl. lia.
Defined.

(** X20: a command that cannot be sent leaves no trace: an argument that is
    not a byte, or a list argument of 255 bytes or more, raises
    [OverflowError] before anything is written; a device number with fewer
    than two elements raises [IndexError]; and when the endpoint refuses the
    write, [USBError] reaches the caller.  In each case the object is
    unchanged. *)
Theorem failed_command_changes_nothing (a b c d e : Z) (l : list Z) (st : Ant) :
  (forallb is_byte [a; b; c] = false ->
   assign_channel a b c st = (Raise OverflowError, st)) /\
  (255 <= Z.of_nat (length l) ->
   set_network_key a l st = (Raise OverflowError, st)) /\
  ((length l < 2)%nat ->
   set_channel_id a l d e st = (Raise IndexError, st)) /\
  (forallb is_byte [a; b] = true -> usb_out_up st = false ->
   set_channel_rf_freq a b st = (Raise USBError, st)).
Proof.
  split; [|split; [|split]].
  - intros H. apply send_now_overflow.
    cbn [forallb length] in *. exact H.
  - intros H. apply send_now_overflow.
    cbn [forallb]. cbn [length].
    replace (is_byte (Z.of_nat (S (length l)))) with false;
      [rewrite andb_false_r; reflexivity|].
    symmetry. apply not_true_is_false. rewrite is_byte_iff. lia.
  - intros H. unfold set_channel_id, bind, lift, getitem.
    destruct l as [|x [|y l]]; try reflexivity. simpl in H. lia.
  - intros Hb Hup. unfold set_channel_rf_freq, bind at 1, lift.
    rewrite Message_init_nonempty.
    unfold write_message, bind, lift.
    assert (Hs : sendable (frame ConfigID.SET_CHANNEL_RF_FREQ [a; b]) = true).
    { apply frame_sendable; [reflexivity|exact Hb|simpl; lia]. }
    unfold sendable in Hs. apply andb_true_iff in Hs as [Hs _].
    unfold get, array_B. rewrite Hs. unfold usb_write. rewrite Hup.
    reflexivity.
Qed.

Lemma failed_command_changes_nothing_witness :
  assign_channel 0 256 0 (Ant_init []) = (Raise OverflowError, Ant_init []).
Proof.
  apply (proj1 (failed_command_changes_nothing 0 256 0 0 0 [] (Ant_init []))).
  reflexivity.
Defined.

(** ** Names of codes *)

Lemma mem_In (x : Z) (l : list Z) : mem x l = true <-> In x l.
Proof.
  unfold mem. rewrite existsb_exists. split.
  - intros (y & Hy & E). apply Z.eqb_eq in E. subst. exact Hy.
  - intros H. exists x. split; [exact H|apply Z.eqb_refl].
Qed.

Lemma distinct_NoDup (l : list Z) : distinct l = true -> NoDup l.
Proof.
  induction l as [|x l IH]; intros H; [constructor|].
  cbn [distinct] in H. apply andb_true_iff in H as [Hx Hl].
  constructor; [|apply IH, Hl].
  intros Hin. apply mem_In in Hin. rewrite Hin in Hx. discriminate Hx.
Qed.

Lemma lookup_in_absent (items : list (String.string * Z)) (event : Z) :
  ~ In event (map snd items) -> lookup_in items event = None.
Proof.
  induction items as [|[key value] items IH]; intros H; [reflexivity|].
  cbn [lookup_in]. cbn [map snd In] in H.
  destruct (Z.eqb_spec value event) as [E|E]; [tauto|].
  apply IH. tauto.
Qed.

Lemma lookup_in_present (items : list (String.string * Z))
  (key : String.string) (event : Z) :
  NoDup (map snd items) -> In (key, event) items ->
  lookup_in items event = Some key.
Proof.
  induction items as [|[key' value] items IH]; intros Hnd Hin; [destruct Hin|].
  cbn [lookup_in]. cbn [map snd] in Hnd. inversion Hnd as [|? ? Hnot Hnd']; subst.
  destruct Hin as [E|Hin].
  - injection E as -> ->. rewrite Z.eqb_refl. reflexivity.
  - destruct (Z.eqb_spec value event) as [E|E].
    + subst. exfalso. apply Hnot.
      apply (in_map snd) in Hin. exact Hin.
    + apply IH; assumption.
Qed.

Lemma code_values_distinct : NoDup (map snd CodeNames.items).
Proof. apply distinct_NoDup. vm_compute. reflexivity. Qed.

(** X21: [Message.Code.lookup] does not depend on the order in which the
    dictionary of the class yields its items, because no two codes have the
    same value: in any order, a code value gives back its own name, and a
    value that is no code gives [None]. *)
Theorem lookup_any_order (items : list (String.string * Z)) (event : Z) :
  Permutation items CodeNames.items ->
  lookup_in items event = lookup event /\
  (forall key, In (key, event) CodeNames.items ->
               lookup_in items event = Some key) /\
  (~ In event (map snd CodeNames.items) -> lookup_in items event = None).
Proof.
  intros P.
  assert (Hnd : NoDup (map snd items)).
  { apply (Permutation_NoDup (l := map snd CodeNames.items)).
    - apply Permutation_map, Permutation_sym, P.
    - exact code_values_distinct. }
  assert (S : forall key, In (key, event) CodeNames.items ->
                          lookup_in items event = Some key).
  { intros key Hin. apply lookup_in_present; [exact Hnd|].
    apply (Permutation_in _ (Permutation_sym P)), Hin. }
  assert (N : ~ In event (map snd CodeNames.items) ->
              lookup_in items event = None).
  { intros Hnot. apply lookup_in_absent. intros Hin. apply Hnot.
    apply (Permutation_in _ (Permutation_map snd P)), Hin. }
  split; [|split; assumption].
  unfold lookup.
  destruct (in_dec Z.eq_dec event (map snd CodeNames.items)) as [Hin|Hnot].
  - apply in_map_iff in Hin as ([key value] & E & Hin). cbn [snd] in E. subst.
    rewrite (S key Hin). symmetry.
    apply lookup_in_present; [exact code_values_distinct|exact Hin].
  - rewrite (N Hnot). symmetry. apply lookup_in_absent, Hnot.
Qed.

Lemma lookup_any_order_witness :
  lookup_in (rev CodeNames.items) 3000 = lookup 3000.
Proof.
  apply (proj1 (lookup_any_order (rev CodeNames.items) 3000
                  (Permutation_sym (Permutation_rev CodeNames.items)))).
Defined.

Module LookupExamples.
Import String.

Example lookup_burst_packet :
  lookup Code.EVENT_RX_BURST_PACKET = Some "EVENT_RX_BURST_PACKET"%string.
Proof. reflexivity. Qed.

Example lookup_unknown : lookup 11 = None.
Proof. reflexivity. Qed.

End LookupExamples.

(** ** The loop sees a byte stream, not reads *)



























Example run_two_frames_delivered :
  delivered
    (snd (run 4
            (set_usb_in
               (map Ok [[0xa4]; [2; 0x4f; 0]; []; [9; 0xe0; 0xa4; 1; 0x6f];
                        [0x20; 0xea]])
               (Ant_init []))))
  = [ChannelEvent 0 Code.EVENT_RX_ACKNOWLEDGED [9];
     Response None ID.STARTUP_MESSAGE [0x20]].
Proof. reflexivity. Qed.
